(** * zdir_patch: one directory patch ("create this file" / "delete this file")

    A shallow embedding of [src/zdir_patch.c] (CZMQ) and the properties of
    its constructor, duplicator, accessors, digest cache and destructor.

    Conventions of the embedding
    - a [char *] that the code never lets be NULL is a [string] holding the
      characters before the terminating NUL; a [char *] that may be NULL is
      an [option string];
    - [size_t] values are [Z] with the wrap-around modulo [2^64] written out;
    - a [zdir_patch_t *] is a [ptr]: NULL or a location of the patch heap;
    - a function of the C file is a computation in the monad [M]: it reads
      and updates the program state and either returns, stops on a failed
      [assert], or runs into undefined behaviour (invalid memory access);
      assertions are taken to be compiled in and allocations to succeed. *)

From Stdlib Require Import ZArith String Ascii List Bool Lia.
From stdpp Require Import gmap strings relations.

#[local] Open Scope Z_scope.

(** ** Outcomes and the state-and-failure monad *)

Inductive outcome (A : Type) : Type :=
| Returns (a : A)          (* normal return *)
| AssertFailed             (* a failed [assert]: the process aborts *)
| Undefined.               (* invalid memory access *)

Arguments Returns {A} a.
Arguments AssertFailed {A}.
Arguments Undefined {A}.

Definition outcome_bind {A B : Type} (o : outcome A) (k : A -> outcome B) : outcome B :=
  match o with
  | Returns a => k a
  | AssertFailed => AssertFailed
  | Undefined => Undefined
  end.

(** ** C strings and [size_t] arithmetic *)

Module CString.

Definition SIZE_BITS : Z := 64.
Definition SIZE_MOD : Z := 2 ^ SIZE_BITS.

(** [size_t] addition and subtraction wrap around. *)
Definition size_add (a b : Z) : Z := (a + b) mod SIZE_MOD.
Definition size_sub (a b : Z) : Z := (a - b) mod SIZE_MOD.

Definition NUL : ascii := Ascii.zero.
Definition SLASH : ascii := "/"%char.

Definition strlen (s : string) : Z := Z.of_nat (String.length s).

(** [strdup] returns a fresh copy with the same characters. *)
Definition strdup (s : string) : string := s.

(** [s [i]] for an unsigned index [i]: the characters of [s], then the
    terminator at index [strlen s]; any other index is outside the array. *)
Definition char_at (s : string) (i : Z) : outcome ascii :=
  if (i <? 0) || (strlen s <? i) then Undefined
  else match String.get (Z.to_nat i) s with
       | Some c => Returns c
       | None => Returns NUL
       end.

(** What a format string made of ordinary characters and [%s] directives
    produces; [None] when a directive has no argument left. *)
Fixpoint format (fmt : string) (args : list string) : option string :=
  match fmt with
  | EmptyString => Some EmptyString
  | String "%" (String "s" rest) =>
      match args with
      | a :: args' => option_map (String.append a) (format rest args')
      | [] => None
      end
  | String c rest => option_map (String c) (format rest args)
  end.

(** [sprintf (buf, fmt, args)] into a buffer of [size] bytes: the output
    and its terminator must fit, else the write runs past the buffer. *)
Definition sprintf (size : Z) (fmt : string) (args : list string) : outcome string :=
  match format fmt args with
  | Some out => if strlen out + 1 <=? size then Returns out else Undefined
  | None => Undefined
  end.

End CString.

Import CString.

(** ** The file collaborator

    [zfile_t] and its functions are declared in [include/zfile.h] and defined
    in [src/zfile.c]; the patch class only calls them. *)

(** Modelled from the spec: the File entity of section 6, which is absent
    from the sources at hand.  It offers a duplication returning an
    independently owned handle, the name of the file relative to a directory
    path, and a content digest that fails (NULL) when the file cannot be read.
    The digest depends on what is on disk when it is taken, so it reads a
    [disk]. *)
Class ZFile (zfile_t disk : Type) : Type := {
  zfile_dup : zfile_t -> zfile_t;
  zfile_filename : zfile_t -> string -> string;
  zfile_digest : disk -> zfile_t -> option string
}.

(** ** The patch structure *)

(** Modelled from the spec: [zdir_patch_op_t] is declared in
    [include/zdir_patch.h]; the spec gives its two values. *)
Inductive zdir_patch_op_t : Type := patch_create | patch_delete.

#[global] Instance zdir_patch_op_eq_dec : EqDecision zdir_patch_op_t.
Proof. solve_decision. Defined.

(** [struct _zdir_patch_t].  [digest] is the only field the code leaves or
    tests as NULL. *)
Record zdir_patch_t (zfile_t : Type) : Type := mk_patch {
  path : string;                 (* Directory path *)
  vpath : string;                (* Virtual file path *)
  file : zfile_t;                (* File we refer to *)
  op : zdir_patch_op_t;          (* Operation *)
  digest : option string         (* File SHA-1 digest *)
}.

Arguments mk_patch {zfile_t} _ _ _ _ _.
Arguments path {zfile_t} _.
Arguments vpath {zfile_t} _.
Arguments file {zfile_t} _.
Arguments op {zfile_t} _.
Arguments digest {zfile_t} _.

(** ** Program state *)

(** Addresses of patches. *)
Abbreviation loc := positive (only parsing).
(** A [zdir_patch_t *]: NULL or the address of a patch. *)
Abbreviation ptr := (option positive) (only parsing).
(** The address of a caller's variable of type [zdir_patch_t *]. *)
Abbreviation var := positive (only parsing).

(** The live patches, and the callers' pointer variables that
    [zdir_patch_destroy] is handed the address of. *)
Record state (zfile_t : Type) : Type := mk_state {
  patches : gmap loc (zdir_patch_t zfile_t);
  refs : gmap var ptr
}.

Arguments mk_state {zfile_t} _ _.
Arguments patches {zfile_t} _.
Arguments refs {zfile_t} _.

Definition init_state {zfile_t : Type} : state zfile_t := mk_state ∅ ∅.

Section Monad.
Context {zfile_t : Type}.

Definition M (A : Type) : Type := state zfile_t -> outcome (A * state zfile_t).

Definition ret {A : Type} (a : A) : M A := fun s => Returns (a, s).

Definition bind {A B : Type} (m : M A) (k : A -> M B) : M B :=
  fun s => outcome_bind (m s) (fun r => k (fst r) (snd r)).

(** Lift a computation that does not touch the state. *)
Definition lift {A : Type} (o : outcome A) : M A :=
  fun s => outcome_bind o (fun a => Returns (a, s)).

(** [assert (b)] *)
Definition assert (b : bool) : M unit :=
  fun s => if b then Returns (tt, s) else AssertFailed.

(** [*self]: reading through NULL or through a pointer to a freed patch is
    an invalid access. *)
Definition deref (self : ptr) : M (zdir_patch_t zfile_t) :=
  fun s => match self with
           | Some l => match patches s !! l with
                       | Some p => Returns (p, s)
                       | None => Undefined
                       end
           | None => Undefined
           end.

(** Write the structure back at a live address. *)
Definition store (self : ptr) (p : zdir_patch_t zfile_t) : M unit :=
  fun s => match self with
           | Some l => match patches s !! l with
                       | Some _ => Returns (tt, mk_state (<[l := p]> (patches s)) (refs s))
                       | None => Undefined
                       end
           | None => Undefined
           end.

(** [zmalloc (sizeof (zdir_patch_t))], filled in: a fresh address. *)
Definition alloc (p : zdir_patch_t zfile_t) : M ptr :=
  fun s => let l := fresh (dom (patches s)) in
           Returns (Some l, mk_state (<[l := p]> (patches s)) (refs s)).

(** Modelled from the spec: [zmalloc] is defined in [include/czmq_prelude.h],
    which is absent from the sources at hand.  The memory it returns is
    zero-filled, so a pointer field of the structure that is not assigned
    reads as NULL: section 4.1 has the constructor, which never assigns the
    digest, return a patch with the digest absent. *)
Definition zmalloc_zeroed {A : Type} : option A := None.

(** [free (self)]: the address must be live. *)
Definition free (l : loc) : M unit :=
  fun s => match patches s !! l with
           | Some _ => Returns (tt, mk_state (delete l (patches s)) (refs s))
           | None => Undefined
           end.

(** [*self_p] and [*self_p = v] for a caller's variable. *)
Definition read_ref (x : var) : M ptr :=
  fun s => match refs s !! x with
           | Some v => Returns (v, s)
           | None => Undefined
           end.

Definition write_ref (x : var) (v : ptr) : M unit :=
  fun s => match refs s !! x with
           | Some _ => Returns (tt, mk_state (patches s) (<[x := v]> (refs s)))
           | None => Undefined
           end.

(** A caller's declaration [zdir_patch_t *x = v;] *)
Definition declare_ref (x : var) (v : ptr) : M unit :=
  fun s => Returns (tt, mk_state (patches s) (<[x := v]> (refs s))).

End Monad.

Arguments M zfile_t A : clear implicits.

Declare Scope prog_scope.
Delimit Scope prog_scope with prog.
Notation "'let*' x ':=' m 'in' k" := (bind m (fun x => k))
  (at level 10, x name, m at level 100, k at level 200) : prog_scope.
Notation "m ';;;' k" := (bind m (fun _ => k))
  (at level 100, k at level 200, right associativity) : prog_scope.

(** Run the binds whose first computation has been evaluated. *)
Ltac mstep := cbn [negb outcome_bind fst snd].
Tactic Notation "mstep" "in" hyp(H) := cbn [negb outcome_bind fst snd] in H.

(** ** The functions of [zdir_patch.c] *)

Section ZDirPatch.
Context {zfile_t disk : Type} `{!ZFile zfile_t disk}.

#[local] Open Scope prog_scope.

(** The size handed to [zmalloc] for the virtual path. *)
Definition vpath_size (alias filename : string) : Z :=
  size_add (size_add (strlen alias) (strlen filename)) 2.

(** The index of the trailing-separator test, [strlen (alias) - 1]. *)
Definition alias_last (alias : string) : Z := size_sub (strlen alias) 1.

(** Constructor: create new patch, create virtual path from alias.
    The structure comes from [zmalloc] and [digest] is never assigned. *)
Definition zdir_patch_new (path : string) (file : zfile_t) (op : zdir_patch_op_t)
    (alias : string) : M zfile_t ptr :=
  let self_path := strdup path in
  let self_file := zfile_dup file in
  let self_op := op in
  (* Calculate virtual path for patch (remove path, prefix alias) *)
  let filename := zfile_filename file path in
  let* c0 := lift (char_at filename 0) in
  assert (negb (Ascii.eqb c0 SLASH));;;
  let size := vpath_size alias filename in
  let* last := lift (char_at alias (alias_last alias)) in
  let* self_vpath :=
    lift (if Ascii.eqb last SLASH
          then sprintf size "%s%s" [alias; filename]
          else sprintf size "%s/%s" [alias; filename]) in
  alloc (mk_patch self_path self_vpath self_file self_op zmalloc_zeroed).

(** Destroy a patch.  [self_p] is the address of the caller's pointer
    variable, or NULL. *)
Definition zdir_patch_destroy (self_p : option var) : M zfile_t unit :=
  assert (bool_decide (is_Some self_p));;;
  match self_p with
  | Some x =>
      let* self := read_ref x in
      match self with
      | Some l =>
          (* free path, vpath and digest, destroy the file: all owned by
             the structure, which must be live to be read *)
          let* _p := deref self in
          free l;;;
          write_ref x None
      | None => ret tt
      end
  | None => ret tt
  end.

(** Create copy of a patch.  Don't recalculate hash when we duplicate. *)
Definition zdir_patch_dup (self : ptr) : M zfile_t ptr :=
  let* p := deref self in
  let copy_path := strdup (path p) in
  let copy_file := zfile_dup (file p) in
  let copy_op := op p in
  let copy_vpath := strdup (vpath p) in
  let copy_digest := match digest p with
                     | Some d => Some (strdup d)
                     | None => None
                     end in
  alloc (mk_patch copy_path copy_vpath copy_file copy_op copy_digest).

(** Return patch file directory path *)
Definition zdir_patch_path (self : ptr) : M zfile_t string :=
  assert (bool_decide (is_Some self));;;
  let* p := deref self in
  ret (path p).

(** Return patch file item *)
Definition zdir_patch_file (self : ptr) : M zfile_t zfile_t :=
  assert (bool_decide (is_Some self));;;
  let* p := deref self in
  ret (file p).

(** Return operation *)
Definition zdir_patch_op (self : ptr) : M zfile_t zdir_patch_op_t :=
  assert (bool_decide (is_Some self));;;
  let* p := deref self in
  ret (op p).

(** Return patch virtual file path *)
Definition zdir_patch_vpath (self : ptr) : M zfile_t string :=
  assert (bool_decide (is_Some self));;;
  let* p := deref self in
  ret (vpath p).

(** Calculate hash digest for file (create only) *)
Definition zdir_patch_digest_set (d : disk) (self : ptr) : M zfile_t unit :=
  let* p := deref self in
  if bool_decide (op p = patch_create) && bool_decide (digest p = None)
  then store self (mk_patch (path p) (vpath p) (file p) (op p) (zfile_digest d (file p)))
  else ret tt.

(** Return hash digest for patch file (create only) *)
Definition zdir_patch_digest (self : ptr) : M zfile_t (option string) :=
  assert (bool_decide (is_Some self));;;
  let* p := deref self in
  ret (digest p).

End ZDirPatch.

(** ** Sequences of calls *)

Section Calls.
Context {zfile_t disk : Type} `{!ZFile zfile_t disk}.

(** What a client may do with the class: call its functions with any
    arguments, and declare pointer variables. *)
Inductive api_call : Type :=
| CallNew (path : string) (file : zfile_t) (op : zdir_patch_op_t) (alias : string)
| CallDup (self : ptr)
| CallDigestSet (d : disk) (self : ptr)
| CallDestroy (self_p : option var)
| CallDeclare (x : var) (v : ptr).

Definition exec (c : api_call) : M zfile_t unit :=
  match c with
  | CallNew path file op alias => bind (zdir_patch_new path file op alias) (fun _ => ret tt)
  | CallDup self => bind (zdir_patch_dup self) (fun _ => ret tt)
  | CallDigestSet d self => zdir_patch_digest_set d self
  | CallDestroy self_p => zdir_patch_destroy self_p
  | CallDeclare x v => declare_ref x v
  end.

(** One call that returns takes the state [s] to [s']. *)
Definition step (s s' : state zfile_t) : Prop :=
  exists c, exec c s = Returns (tt, s').

(** The states a program can be in: those reached from the empty state by
    calls that return. *)
Definition reachable (s : state zfile_t) : Prop := rtc step init_state s.

(** [zdir_patch_digest_set] called once per entry of [ds], each call seeing
    the disk as it is at that moment. *)
Fixpoint digest_set_many (ds : list disk) (self : ptr) : M zfile_t unit :=
  match ds with
  | [] => ret tt
  | d :: ds' => bind (zdir_patch_digest_set d self) (fun _ => digest_set_many ds' self)
  end.

End Calls.

(** ** A concrete file collaborator *)

Module FileModel.

(** Modelled from the spec: a file is known by its full name; its name
    relative to a directory path is the full name with that path and the
    separators after it stripped, or the full name itself when the file is
    not under the path.  A disk gives the digest of each readable file. *)
Record zfile : Type := zfile_new_full { fullname : string }.

Definition disk : Type := gmap string string.

Fixpoint strip_prefix (pre s : string) : option string :=
  match pre, s with
  | EmptyString, _ => Some s
  | String a pre', String b s' => if Ascii.eqb a b then strip_prefix pre' s' else None
  | String _ _, EmptyString => None
  end.

Fixpoint skip_slashes (s : string) : string :=
  match s with
  | String c s' => if Ascii.eqb c SLASH then skip_slashes s' else s
  | EmptyString => EmptyString
  end.

Definition filename (f : zfile) (path : string) : string :=
  match strip_prefix path (fullname f) with
  | Some rest => skip_slashes rest
  | None => fullname f
  end.

(** [zfile_new (path, name)] *)
Definition zfile_new (path name : string) : zfile :=
  zfile_new_full (path +:+ "/" +:+ name).

#[global] Instance zfile_model : ZFile zfile disk := {
  zfile_dup f := f;
  zfile_filename := filename;
  zfile_digest d f := d !! fullname f
}.

End FileModel.

(** ** Vocabulary of the statements *)

(** [*s]: the first character, the terminator for the empty string. *)
Definition first_char (s : string) : ascii :=
  match s with
  | String c _ => c
  | EmptyString => NUL
  end.

Definition starts_with_slash (s : string) : bool := Ascii.eqb (first_char s) SLASH.

(** The character before the terminator of a non-empty string. *)
Fixpoint last_char (s : string) : ascii :=
  match s with
  | EmptyString => NUL
  | String c EmptyString => c
  | String _ s' => last_char s'
  end.

Definition ends_with_slash (s : string) : bool := Ascii.eqb (last_char s) SLASH.

(** [s] without its last character. *)
Fixpoint chop (s : string) : string :=
  match s with
  | EmptyString => EmptyString
  | String _ EmptyString => EmptyString
  | String c s' => String c (chop s')
  end.

(** The alias without the separator it may end in. *)
Definition alias_stem (alias : string) : string :=
  if ends_with_slash alias then chop alias else alias.

(** The virtual path the constructor is to build. *)
Definition expected_vpath (alias filename : string) : string :=
  if ends_with_slash alias then alias +:+ filename else alias +:+ "/" +:+ filename.

(** The two strings and what is allocated for them can be counted in a
    [size_t]: true of any two strings a process holds in memory. *)
Definition addressable (alias filename : string) : Prop :=
  strlen alias + strlen filename + 2 < SIZE_MOD.

(** Bytes [sprintf] writes for an output string: its characters and the
    terminator. *)
Definition bytes_written (out : string) : Z := strlen out + 1.

(** The structure the constructor fills in. *)
Definition built_patch {zfile_t disk : Type} `{!ZFile zfile_t disk}
    (path : string) (file : zfile_t) (op : zdir_patch_op_t) (alias : string)
    : zdir_patch_t zfile_t :=
  mk_patch (strdup path) (expected_vpath alias (zfile_filename file path))
           (zfile_dup file) op None.

(** The state after a patch [p] was allocated. *)
Definition allocated {zfile_t : Type} (p : zdir_patch_t zfile_t) (s : state zfile_t)
    : state zfile_t :=
  mk_state (<[fresh (dom (patches s)) := p]> (patches s)) (refs s).

(** The structure after [zdir_patch_digest_set] ran on it with disk [d]. *)
Definition cached {zfile_t disk : Type} `{!ZFile zfile_t disk}
    (d : disk) (p : zdir_patch_t zfile_t) : zdir_patch_t zfile_t :=
  if bool_decide (op p = patch_create) && bool_decide (digest p = None)
  then mk_patch (path p) (vpath p) (file p) (op p) (zfile_digest d (file p))
  else p.

(** The structure [zdir_patch_dup] fills in for a copy of [p]. *)
Definition copy_of {zfile_t disk : Type} `{!ZFile zfile_t disk}
    (p : zdir_patch_t zfile_t) : zdir_patch_t zfile_t :=
  mk_patch (path p) (vpath p) (zfile_dup (file p)) (op p) (digest p).

(** The state with the structure at [l] replaced. *)
Definition updated {zfile_t : Type} (l : loc) (p : zdir_patch_t zfile_t)
    (s : state zfile_t) : state zfile_t :=
  mk_state (<[l := p]> (patches s)) (refs s).

(** The invariant of the digest field: no live delete patch has one. *)
Definition delete_has_no_digest {zfile_t : Type} (s : state zfile_t) : Prop :=
  forall l p, patches s !! l = Some p -> op p = patch_delete -> digest p = None.

(** ** Concrete runs *)

Module Samples.
Import FileModel.

#[local] Open Scope prog_scope.

Definition bilbo : zfile := zfile_new "." "bilbo".
Definition todo : zfile := zfile_new "notes" "todo.txt".
(** A file that is not under the directory it is said to be in. *)
Definition passwd : zfile := zfile_new_full "/etc/passwd".

(** Two contents of the disk: the file changed in between. *)
Definition disk_before : disk :=
  {[ "./bilbo" := "da39a3ee5e6b4b0d3255bfef95601890afd80709" ]}.
Definition disk_after : disk :=
  {[ "./bilbo" := "2fd4e1c67a2d28fced849ee1bb76e7391b93eb12" ]}.

(** The state after the first patch was constructed in an empty state. *)
Definition bilbo_state : state zfile :=
  allocated (built_patch "." bilbo patch_create "/") init_state.
Definition todo_state : state zfile :=
  allocated (built_patch "notes" todo patch_delete "/data") init_state.

(** The same file, in a delete patch. *)
Definition bilbo_gone_state : state zfile :=
  allocated (built_patch "." bilbo patch_delete "/") init_state.

(** [bilbo_state] after the digest was taken from [disk_before]. *)
Definition bilbo_cached : state zfile :=
  updated 1%positive (cached disk_before (built_patch "." bilbo patch_create "/")) bilbo_state.

(** [bilbo_state] with the pointer kept in the caller's variable 1. *)
Definition bilbo_owned : state zfile :=
  mk_state (patches bilbo_state) {[ 1%positive := Some 1%positive ]}.
Definition bilbo_destroyed : state zfile :=
  mk_state ∅ {[ 1%positive := None ]}.

(** The self test of the class, [zdir_patch_test]; the variable [patch] is
    variable 1.  Files are values here, so destroying the caller's file after
    the constructor took its duplicate leaves no trace. *)
Definition zdir_patch_test : M zfile unit :=
  let file := zfile_new "." "bilbo" in
  let* patch := zdir_patch_new "." file patch_create "/" in
  declare_ref 1%positive patch;;;
  let* file := zdir_patch_file patch in
  assert (String.eqb (zfile_filename file ".") "bilbo");;;
  let* v := zdir_patch_vpath patch in
  assert (String.eqb v "/bilbo");;;
  zdir_patch_destroy (Some 1%positive).

End Samples.

(** ** Vocabulary of the further properties *)

(** Whether a separator occurs in a string. *)
Fixpoint contains_slash (s : string) : bool :=
  match s with
  | EmptyString => false
  | String c s' => Ascii.eqb c SLASH || contains_slash s'
  end.

(** Every live patch has a separator in its virtual path. *)
Definition vpaths_have_separator {zfile_t : Type} (s : state zfile_t) : Prop :=
  forall l p, patches s !! l = Some p -> contains_slash (vpath p) = true.

(** The state after the patch at [l] was destroyed through variable [x]. *)
Definition destroyed {zfile_t : Type} (x : var) (l : loc) (s : state zfile_t)
    : state zfile_t :=
  mk_state (delete l (patches s)) (<[x := None]> (refs s)).

(** ** Further concrete states *)

Module MoreSamples.
Import FileModel Samples.

(** The patch of [bilbo_state]. *)
Definition bilbo_patch : zdir_patch_t zfile := built_patch "." bilbo patch_create "/".

(** A second file of the same name, in another directory. *)
Definition todo_docs : zfile := zfile_new "docs" "todo.txt".

(** A disk on which no file can be read. *)
Definition disk_unreadable : disk := ∅.

(** [bilbo_state] with the pointer held by two variables. *)
Definition bilbo_shared : state zfile :=
  mk_state (patches bilbo_state)
           {[ 1%positive := Some 1%positive; 2%positive := Some 1%positive ]}.

(** [bilbo_shared] after the patch was destroyed through variable 1. *)
Definition bilbo_shared_destroyed : state zfile := destroyed 1%positive 1%positive bilbo_shared.

(** [bilbo_state] after a call that found the file unreadable, then one
    that read it from [disk_after]. *)
Definition bilbo_cached_late : state zfile :=
  updated 1%positive (cached disk_after bilbo_patch) bilbo_state.

End MoreSamples.

(** ** Facts about strings and [size_t] *)

Section StringFacts.

Lemma app_cons (c : ascii) (s t : string) : String c s +:+ t = String c (s +:+ t).
Proof. reflexivity. Qed.

Lemma app_empty_l (t : string) : "" +:+ t = t.
Proof. reflexivity. Qed.

Lemma app_empty_r (s : string) : s +:+ "" = s.
Proof.
  induction s as [|c s IH]; [reflexivity|].
  rewrite app_cons. now rewrite IH.
Qed.

Lemma strlen_app (a b : string) : strlen (a +:+ b) = strlen a + strlen b.
Proof.
  unfold strlen. induction a as [|c a IH].
  - rewrite app_empty_l. cbn [String.length]. lia.
  - rewrite app_cons. cbn [String.length]. rewrite !Nat2Z.inj_succ. lia.
Qed.

Lemma strlen_nonneg (s : string) : 0 <= strlen s.
Proof. unfold strlen. lia. Qed.

Lemma strlen_cons (c : ascii) (s : string) : strlen (String c s) = strlen s + 1.
Proof. unfold strlen. cbn [String.length]. lia. Qed.

Lemma format_ss (a f : string) : format "%s%s" [a; f] = Some (a +:+ f).
Proof. cbn. now rewrite app_empty_r. Qed.

Lemma format_s_slash_s (a f : string) : format "%s/%s" [a; f] = Some (a +:+ "/" +:+ f).
Proof. cbn. now rewrite app_empty_r. Qed.

Lemma char_at_0 (s : string) : char_at s 0 = Returns (first_char s).
Proof.
  unfold char_at. pose proof (strlen_nonneg s).
  replace (0 <? 0) with false by reflexivity.
  destruct (strlen s <? 0) eqn:E; [apply Z.ltb_lt in E; lia|].
  destruct s; reflexivity.
Qed.

Lemma get_last_cons (c : ascii) (s : string) :
  String.get (String.length s) (String c s) = Some (last_char (String c s)).
Proof.
  revert c. induction s as [|c' s IH]; intros c; [reflexivity|].
  change (String.get (String.length s) (String c' s) = Some (last_char (String c' s))).
  apply IH.
Qed.

Lemma get_last (s : string) :
  s <> "" -> String.get (String.length s - 1) s = Some (last_char s).
Proof.
  destruct s as [|c s]; [congruence|]. intros _.
  cbn [String.length]. rewrite Nat.sub_1_r, Nat.pred_succ. apply get_last_cons.
Qed.

Lemma chop_last (s : string) : s <> "" -> s = chop s +:+ String (last_char s) "".
Proof.
  induction s as [|c s IH]; [congruence|]. intros _.
  destruct s as [|c' s]; [reflexivity|].
  specialize (IH ltac:(congruence)).
  cbn [chop last_char]. rewrite app_cons.
  cbn [chop last_char] in IH. now rewrite <- IH.
Qed.

End StringFacts.

Section SizeFacts.

Lemma SIZE_MOD_pos : 0 < SIZE_MOD.
Proof. reflexivity. Qed.

Lemma alias_last_empty : alias_last "" = SIZE_MOD - 1.
Proof. reflexivity. Qed.

Lemma alias_last_bounds (alias : string) :
  alias <> "" -> 0 <= alias_last alias < strlen alias.
Proof.
  intros Hne. unfold alias_last, size_sub.
  assert (1 <= strlen alias).
  { destruct alias as [|c s]; [congruence|]. rewrite strlen_cons.
    pose proof (strlen_nonneg s). lia. }
  pose proof SIZE_MOD_pos.
  pose proof (Z.mod_pos_bound (strlen alias - 1) SIZE_MOD ltac:(lia)).
  pose proof (Z.mod_le (strlen alias - 1) SIZE_MOD ltac:(lia) ltac:(lia)).
  lia.
Qed.

Lemma alias_last_exact (alias : string) :
  alias <> "" -> strlen alias <= SIZE_MOD -> alias_last alias = strlen alias - 1.
Proof.
  intros Hne Hle. unfold alias_last, size_sub.
  assert (1 <= strlen alias).
  { destruct alias as [|c s]; [congruence|]. rewrite strlen_cons.
    pose proof (strlen_nonneg s). lia. }
  apply Z.mod_small. lia.
Qed.

Lemma char_at_in_bounds (s : string) (i : Z) :
  0 <= i < strlen s -> exists c, char_at s i = Returns c.
Proof.
  intros Hi. unfold char_at.
  destruct (i <? 0) eqn:E1; [apply Z.ltb_lt in E1; lia|].
  destruct (strlen s <? i) eqn:E2; [apply Z.ltb_lt in E2; lia|].
  cbn [orb]. destruct (String.get (Z.to_nat i) s); eauto.
Qed.

Lemma char_at_cases (s : string) (i : Z) :
  (exists c, char_at s i = Returns c) \/ char_at s i = Undefined.
Proof.
  unfold char_at. destruct ((i <? 0) || (strlen s <? i)); [now right|].
  left. destruct (String.get (Z.to_nat i) s); eauto.
Qed.

Lemma char_at_last (alias : string) :
  alias <> "" -> strlen alias <= SIZE_MOD ->
  char_at alias (alias_last alias) = Returns (last_char alias).
Proof.
  intros Hne Hle. rewrite (alias_last_exact alias Hne Hle).
  pose proof (alias_last_bounds alias Hne) as Hb.
  rewrite (alias_last_exact alias Hne Hle) in Hb.
  unfold char_at.
  destruct (strlen alias - 1 <? 0) eqn:E1; [apply Z.ltb_lt in E1; lia|].
  destruct (strlen alias <? strlen alias - 1) eqn:E2; [apply Z.ltb_lt in E2; lia|].
  cbn [orb]. unfold strlen.
  replace (Z.to_nat (Z.of_nat (String.length alias) - 1))
    with (String.length alias - 1)%nat by lia.
  now rewrite (get_last alias Hne).
Qed.

Lemma char_at_last_empty : char_at "" (alias_last "") = Undefined.
Proof. reflexivity. Qed.

Lemma vpath_size_exact (alias filename : string) :
  addressable alias filename ->
  vpath_size alias filename = strlen alias + strlen filename + 2.
Proof.
  unfold addressable, vpath_size, size_add. intros H.
  pose proof (strlen_nonneg alias). pose proof (strlen_nonneg filename).
  rewrite (Z.mod_small (strlen alias + strlen filename)) by lia.
  apply Z.mod_small. lia.
Qed.

(** When the sum wraps, what is allocated cannot even hold the two
    strings. *)
Lemma vpath_size_wrapped (alias filename : string) :
  ~ addressable alias filename ->
  vpath_size alias filename < strlen alias + strlen filename + 1.
Proof.
  unfold addressable, vpath_size, size_add. intros H.
  pose proof (strlen_nonneg alias). pose proof (strlen_nonneg filename).
  pose proof SIZE_MOD_pos.
  rewrite Zplus_mod_idemp_l.
  set (n := strlen alias + strlen filename + 2) in *.
  assert (SIZE_MOD <= n) by lia.
  pose proof (Z.mod_pos_bound (n - SIZE_MOD) SIZE_MOD ltac:(lia)).
  pose proof (Z.mod_le (n - SIZE_MOD) SIZE_MOD ltac:(lia) ltac:(lia)).
  replace (n mod SIZE_MOD) with ((n - SIZE_MOD) mod SIZE_MOD).
  - assert (2 <= SIZE_MOD) by (unfold SIZE_MOD, SIZE_BITS; lia). lia.
  - replace (n - SIZE_MOD) with (n + (-1) * SIZE_MOD) by lia.
    apply Z_mod_plus_full.
Qed.

Lemma expected_vpath_length (alias filename : string) :
  strlen (expected_vpath alias filename) =
  strlen alias + strlen filename + (if ends_with_slash alias then 0 else 1).
Proof.
  unfold expected_vpath. destruct (ends_with_slash alias).
  - rewrite strlen_app. lia.
  - rewrite !strlen_app. change (strlen "/") with 1. lia.
Qed.

Lemma sprintf_ss (size : Z) (a f : string) :
  sprintf size "%s%s" [a; f] =
  if bytes_written (a +:+ f) <=? size then Returns (a +:+ f) else Undefined.
Proof. unfold sprintf. now rewrite format_ss. Qed.

Lemma sprintf_s_slash_s (size : Z) (a f : string) :
  sprintf size "%s/%s" [a; f] =
  if bytes_written (a +:+ "/" +:+ f) <=? size then Returns (a +:+ "/" +:+ f) else Undefined.
Proof. unfold sprintf. now rewrite format_s_slash_s. Qed.

End SizeFacts.

(** ** The constructor *)

Section NewFacts.
Context {zfile_t disk : Type} `{!ZFile zfile_t disk}.
Implicit Types (path alias : string) (file : zfile_t) (op : zdir_patch_op_t).
Implicit Types (s : state zfile_t).

Lemma fresh_not_live s : patches s !! fresh (dom (patches s)) = None.
Proof. apply not_elem_of_dom, is_fresh. Qed.

Lemma zdir_patch_new_assert path file op alias s :
  starts_with_slash (zfile_filename file path) = true ->
  zdir_patch_new path file op alias s = AssertFailed.
Proof.
  intros Hs. unfold zdir_patch_new, bind, lift, assert.
  rewrite char_at_0. mstep.
  unfold starts_with_slash in Hs. now rewrite Hs.
Qed.

Lemma zdir_patch_new_empty_alias path file op s :
  starts_with_slash (zfile_filename file path) = false ->
  zdir_patch_new path file op "" s = Undefined.
Proof.
  intros Hs. unfold zdir_patch_new, bind, lift, assert.
  rewrite char_at_0. mstep.
  unfold starts_with_slash in Hs. rewrite Hs. mstep.
  now rewrite char_at_last_empty.
Qed.

Lemma zdir_patch_new_returns path file op alias s :
  starts_with_slash (zfile_filename file path) = false ->
  alias <> "" ->
  addressable alias (zfile_filename file path) ->
  zdir_patch_new path file op alias s =
  Returns (Some (fresh (dom (patches s))), allocated (built_patch path file op alias) s).
Proof.
  intros Hs Hne Haddr. unfold zdir_patch_new, bind, lift, assert.
  set (f := zfile_filename file path) in *.
  rewrite char_at_0. mstep.
  unfold starts_with_slash in Hs. rewrite Hs. mstep.
  pose proof (strlen_nonneg alias). pose proof (strlen_nonneg f).
  rewrite (char_at_last alias Hne) by (unfold addressable in Haddr; lia).
  mstep.
  rewrite sprintf_ss, sprintf_s_slash_s, (vpath_size_exact _ _ Haddr).
  unfold built_patch, allocated, expected_vpath, ends_with_slash, bytes_written.
  fold f. destruct (Ascii.eqb (last_char alias) SLASH).
  - rewrite strlen_app.
    destruct (Z.leb_spec (strlen alias + strlen f + 1) (strlen alias + strlen f + 2)); [|lia].
    reflexivity.
  - rewrite !strlen_app. change (strlen "/") with 1.
    destruct (Z.leb_spec (strlen alias + (1 + strlen f) + 1) (strlen alias + strlen f + 2)); [|lia].
    reflexivity.
Qed.

Lemma zdir_patch_new_overflow path file op alias s :
  starts_with_slash (zfile_filename file path) = false ->
  ~ addressable alias (zfile_filename file path) ->
  zdir_patch_new path file op alias s = Undefined.
Proof.
  intros Hs Hn. unfold zdir_patch_new, bind, lift, assert.
  set (f := zfile_filename file path) in *.
  rewrite char_at_0. mstep.
  unfold starts_with_slash in Hs. rewrite Hs. mstep.
  destruct (char_at_cases alias (alias_last alias)) as [[last ->] | ->];
    mstep; [|reflexivity].
  rewrite sprintf_ss, sprintf_s_slash_s. unfold bytes_written.
  pose proof (vpath_size_wrapped _ _ Hn) as Hw. fold f in Hw.
  pose proof (strlen_nonneg alias). pose proof (strlen_nonneg f).
  destruct (Ascii.eqb last SLASH).
  - rewrite strlen_app.
    destruct (Z.leb_spec (strlen alias + strlen f + 1) (vpath_size alias f)); [lia|].
    reflexivity.
  - rewrite !strlen_app. change (strlen "/") with 1.
    destruct (Z.leb_spec (strlen alias + (1 + strlen f) + 1) (vpath_size alias f)); [lia|].
    reflexivity.
Qed.

(** The constructor returns exactly when its three preconditions hold. *)
Lemma zdir_patch_new_inv path file op alias s self s' :
  zdir_patch_new path file op alias s = Returns (self, s') ->
  starts_with_slash (zfile_filename file path) = false /\
  alias <> "" /\
  addressable alias (zfile_filename file path) /\
  self = Some (fresh (dom (patches s))) /\
  s' = allocated (built_patch path file op alias) s.
Proof.
  intros Hrun.
  destruct (starts_with_slash (zfile_filename file path)) eqn:Hs.
  { rewrite zdir_patch_new_assert in Hrun by assumption. discriminate. }
  destruct (decide (alias = "")) as [->|Hne].
  { rewrite zdir_patch_new_empty_alias in Hrun by assumption. discriminate. }
  assert (Haddr : addressable alias (zfile_filename file path)).
  { unfold addressable.
    destruct (Z.ltb_spec (strlen alias + strlen (zfile_filename file path) + 2) SIZE_MOD)
      as [|Hge]; [assumption|].
    rewrite zdir_patch_new_overflow in Hrun; [discriminate|assumption|].
    unfold addressable. lia. }
  rewrite zdir_patch_new_returns in Hrun by assumption.
  injection Hrun as <- <-. auto.
Qed.

End NewFacts.

(** ** Accessors and the heap *)

Section AccessorFacts.
Context {zfile_t disk : Type} `{!ZFile zfile_t disk}.
Implicit Types (s : state zfile_t) (p : zdir_patch_t zfile_t) (l : loc).

Lemma deref_live s l p : patches s !! l = Some p -> deref (Some l) s = Returns (p, s).
Proof. intros Hl. unfold deref. now rewrite Hl. Qed.

Lemma zdir_patch_path_live s l p :
  patches s !! l = Some p -> zdir_patch_path (Some l) s = Returns (path p, s).
Proof. intros Hl. unfold zdir_patch_path, bind, assert, ret, deref. cbn. now rewrite Hl. Qed.

Lemma zdir_patch_vpath_live s l p :
  patches s !! l = Some p -> zdir_patch_vpath (Some l) s = Returns (vpath p, s).
Proof. intros Hl. unfold zdir_patch_vpath, bind, assert, ret, deref. cbn. now rewrite Hl. Qed.

Lemma zdir_patch_file_live s l p :
  patches s !! l = Some p -> zdir_patch_file (Some l) s = Returns (file p, s).
Proof. intros Hl. unfold zdir_patch_file, bind, assert, ret, deref. cbn. now rewrite Hl. Qed.

Lemma zdir_patch_op_live s l p :
  patches s !! l = Some p -> zdir_patch_op (Some l) s = Returns (op p, s).
Proof. intros Hl. unfold zdir_patch_op, bind, assert, ret, deref. cbn. now rewrite Hl. Qed.

Lemma zdir_patch_digest_live s l p :
  patches s !! l = Some p -> zdir_patch_digest (Some l) s = Returns (digest p, s).
Proof. intros Hl. unfold zdir_patch_digest, bind, assert, ret, deref. cbn. now rewrite Hl. Qed.

Lemma allocated_fresh s p :
  patches (allocated p s) !! fresh (dom (patches s)) = Some p.
Proof. unfold allocated. cbn. apply lookup_insert_eq. Qed.

Lemma allocated_other s p l :
  is_Some (patches s !! l) -> patches (allocated p s) !! l = patches s !! l.
Proof.
  intros Hl. unfold allocated. cbn. apply lookup_insert_ne.
  intros <-. rewrite fresh_not_live in Hl. now destruct Hl.
Qed.

End AccessorFacts.

(** ** What the statements' vocabulary means *)

Section VocabularyFacts.

Lemma app_assoc_string (a b c : string) : (a +:+ b) +:+ c = a +:+ (b +:+ c).
Proof.
  induction a as [|x a IH]; [reflexivity|].
  rewrite !app_cons. now rewrite IH.
Qed.

Lemma starts_with_slash_spec (f : string) :
  starts_with_slash f = true <-> exists rest, f = String SLASH rest.
Proof.
  unfold starts_with_slash. split.
  - destruct f as [|c rest]; cbn [first_char]; intros Hc.
    + discriminate.
    + apply Ascii.eqb_eq in Hc as ->. eauto.
  - intros [rest ->]. cbn [first_char]. apply Ascii.eqb_refl.
Qed.

Lemma ends_with_slash_spec (alias : string) :
  ends_with_slash alias = true <-> exists stem, alias = stem +:+ "/".
Proof.
  unfold ends_with_slash. split.
  - intros Hc. apply Ascii.eqb_eq in Hc.
    destruct (decide (alias = "")) as [->|Hne]; [discriminate|].
    exists (chop alias). rewrite (chop_last alias Hne) at 1. now rewrite Hc.
  - intros [stem ->]. apply Ascii.eqb_eq.
    induction stem as [|c stem IH]; [reflexivity|].
    rewrite app_cons. destruct (stem +:+ "/") eqn:E; [|exact IH].
    destruct stem; discriminate.
Qed.

(** Either way one separator stands between the stem of the alias and the
    file name. *)
Lemma expected_vpath_stem (alias f : string) :
  expected_vpath alias f = alias_stem alias +:+ "/" +:+ f.
Proof.
  unfold expected_vpath, alias_stem.
  destruct (ends_with_slash alias) eqn:E; [|reflexivity].
  assert (Hne : alias <> "") by (intros ->; discriminate).
  unfold ends_with_slash in E. apply Ascii.eqb_eq in E.
  rewrite (chop_last alias Hne) at 1. rewrite E.
  now rewrite app_assoc_string.
Qed.

End VocabularyFacts.

(** ** The constructor's contract *)

Section NewClaims.
Context {zfile_t disk : Type} `{!ZFile zfile_t disk}.
Implicit Types (path alias : string) (file : zfile_t) (op : zdir_patch_op_t).
Implicit Types (s : state zfile_t).

(** C1.  Constructing a patch with a non-empty alias, for a file whose name
    [f] relative to the path does not begin with a separator, returns a patch
    whose virtual path is [alias ++ f] when the alias ends in ['/'] and
    [alias ++ "/" ++ f] when it does not; either way it is the alias without
    its trailing separator, one ['/'], and [f]. *)
Theorem zdir_patch_new_vpath_correct path file op alias s :
  alias <> "" ->
  starts_with_slash (zfile_filename file path) = false ->
  addressable alias (zfile_filename file path) ->
  exists self s',
    zdir_patch_new path file op alias s = Returns (self, s') /\
    zdir_patch_vpath self s' =
      Returns (if ends_with_slash alias
               then alias +:+ zfile_filename file path
               else alias +:+ "/" +:+ zfile_filename file path, s') /\
    zdir_patch_vpath self s' =
      Returns (alias_stem alias +:+ "/" +:+ zfile_filename file path, s').
Proof.
  intros Hne Hs Haddr.
  exists (Some (fresh (dom (patches s)))), (allocated (built_patch path file op alias) s).
  split; [now apply zdir_patch_new_returns|].
  rewrite (zdir_patch_vpath_live _ _ _ (allocated_fresh s _)).
  cbn [vpath built_patch]. rewrite <- expected_vpath_stem. auto.
Qed.

(** C2.  The constructor stops on its assertion exactly when the file's name
    relative to the path begins with ['/']: it always does then, and never
    otherwise. *)
Theorem zdir_patch_new_assert_iff path file op alias s :
  zdir_patch_new path file op alias s = AssertFailed <->
  exists rest, zfile_filename file path = String "/" rest.
Proof.
  change "/"%char with SLASH. rewrite <- starts_with_slash_spec. split.
  - intros Hrun. destruct (starts_with_slash (zfile_filename file path)) eqn:Hs;
      [reflexivity|exfalso].
    destruct (decide (alias = "")) as [->|Hne].
    { rewrite zdir_patch_new_empty_alias in Hrun by assumption. discriminate. }
    destruct (Z.ltb_spec (strlen alias + strlen (zfile_filename file path) + 2) SIZE_MOD)
      as [Hlt|Hge].
    + rewrite zdir_patch_new_returns in Hrun by assumption. discriminate.
    + rewrite zdir_patch_new_overflow in Hrun; [discriminate|assumption|].
      unfold addressable. lia.
  - apply zdir_patch_new_assert.
Qed.

(** C6.  Whenever the constructor returns, for either operation, the new
    patch has no digest: [zdir_patch_digest] returns NULL. *)
Theorem zdir_patch_new_digest_absent path file op alias s self s' :
  zdir_patch_new path file op alias s = Returns (self, s') ->
  zdir_patch_digest self s' = Returns (None, s').
Proof.
  intros Hrun. apply zdir_patch_new_inv in Hrun as (_ & _ & _ & -> & ->).
  now rewrite (zdir_patch_digest_live _ _ _ (allocated_fresh s _)).
Qed.

(** C8.  The trailing-separator test reads [alias [strlen (alias) - 1]].  For
    a non-empty alias that index is within the alias and the read succeeds;
    for the empty alias the index wraps to [SIZE_MAX], the read is outside
    the string, and the constructor cannot return. *)
Theorem zdir_patch_new_alias_index :
  (forall alias, alias <> "" ->
     0 <= alias_last alias < strlen alias /\
     exists c, char_at alias (alias_last alias) = Returns c) /\
  alias_last "" = SIZE_MOD - 1 /\
  char_at "" (alias_last "") = Undefined /\
  (forall path file op s,
     starts_with_slash (zfile_filename file path) = false ->
     zdir_patch_new path file op "" s = Undefined) /\
  (forall path file op alias s self s',
     zdir_patch_new path file op alias s = Returns (self, s') -> alias <> "").
Proof.
  split; [|split; [|split; [|split]]].
  - intros alias Hne. pose proof (alias_last_bounds alias Hne) as Hb.
    split; [exact Hb|]. now apply char_at_in_bounds.
  - apply alias_last_empty.
  - apply char_at_last_empty.
  - intros. now apply zdir_patch_new_empty_alias.
  - intros * Hrun. now apply zdir_patch_new_inv in Hrun as (_ & Hne & _).
Qed.

(** C10.  The buffer allocated for the virtual path has
    [strlen (alias) + strlen (filename) + 2] bytes, and in both branches what
    [sprintf] writes, terminator included, fits in it: [strlen (alias) +
    strlen (filename) + 1] bytes when the alias ends in ['/'], one more when
    it does not.  So the constructor never writes past the buffer. *)
Theorem zdir_patch_new_buffer_fits path file op alias s :
  let filename := zfile_filename file path in
  addressable alias filename ->
  vpath_size alias filename = strlen alias + strlen filename + 2 /\
  bytes_written (alias +:+ filename) = strlen alias + strlen filename + 1 /\
  bytes_written (alias +:+ "/" +:+ filename) = strlen alias + 1 + strlen filename + 1 /\
  bytes_written (alias +:+ filename) <= vpath_size alias filename /\
  bytes_written (alias +:+ "/" +:+ filename) <= vpath_size alias filename /\
  sprintf (vpath_size alias filename) "%s%s" [alias; filename]
    = Returns (alias +:+ filename) /\
  sprintf (vpath_size alias filename) "%s/%s" [alias; filename]
    = Returns (alias +:+ "/" +:+ filename) /\
  (alias <> "" -> starts_with_slash filename = false ->
   exists self s', zdir_patch_new path file op alias s = Returns (self, s') /\
                   zdir_patch_vpath self s' = Returns (expected_vpath alias filename, s') /\
                   bytes_written (expected_vpath alias filename) <= vpath_size alias filename).
Proof.
  intros filename Haddr. rewrite sprintf_ss, sprintf_s_slash_s.
  pose proof (expected_vpath_length alias filename) as Hlen.
  rewrite (vpath_size_exact _ _ Haddr). unfold bytes_written.
  rewrite !strlen_app. change (strlen "/") with 1.
  pose proof (strlen_nonneg alias). pose proof (strlen_nonneg filename).
  repeat (split; [lia|]).
  split; [|split].
  - destruct (Z.leb_spec (strlen alias + strlen filename + 1)
                         (strlen alias + strlen filename + 2)); [reflexivity|lia].
  - destruct (Z.leb_spec (strlen alias + (1 + strlen filename) + 1)
                         (strlen alias + strlen filename + 2)); [reflexivity|lia].
  - intros Hne Hs.
    exists (Some (fresh (dom (patches s)))), (allocated (built_patch path file op alias) s).
    split; [now apply zdir_patch_new_returns|].
    rewrite (zdir_patch_vpath_live _ _ _ (allocated_fresh s _)).
    split; [reflexivity|]. rewrite Hlen. destruct (ends_with_slash alias); lia.
Qed.

End NewClaims.

(** ** The digest cache, duplication and destruction *)

Section CallFacts.
Context {zfile_t disk : Type} `{!ZFile zfile_t disk}.
Implicit Types (s : state zfile_t) (p : zdir_patch_t zfile_t) (l : loc) (d : disk).

Lemma state_eq s s' : patches s = patches s' -> refs s = refs s' -> s = s'.
Proof. destruct s, s'. cbn. now intros -> ->. Qed.

Lemma updated_same s l p : patches s !! l = Some p -> updated l p s = s.
Proof. intros Hl. apply state_eq; cbn; [now apply insert_id|reflexivity]. Qed.

Lemma cached_delete d p : op p = patch_delete -> cached d p = p.
Proof. intros Hop. unfold cached. now rewrite Hop. Qed.

Lemma cached_present d p dg : digest p = Some dg -> cached d p = p.
Proof.
  intros Hd. unfold cached. rewrite Hd.
  now rewrite (bool_decide_eq_false_2 (Some dg = None)), andb_false_r by discriminate.
Qed.

Lemma cached_absent d p :
  op p = patch_create -> digest p = None ->
  cached d p = mk_patch (path p) (vpath p) (file p) (op p) (zfile_digest d (file p)).
Proof.
  intros Hop Hd. unfold cached.
  now rewrite !bool_decide_eq_true_2 by assumption.
Qed.

Lemma cached_again d p : cached d (cached d p) = cached d p.
Proof.
  destruct (op p) eqn:Hop; [|now rewrite !(cached_delete d p Hop)].
  destruct (digest p) as [dg|] eqn:Hd; [now rewrite !(cached_present d p dg Hd)|].
  rewrite (cached_absent d p Hop Hd).
  destruct (zfile_digest d (file p)) as [dg|] eqn:Hz.
  - now apply (cached_present _ _ dg).
  - rewrite cached_absent by (cbn; first [assumption | reflexivity]).
    cbn. now rewrite Hz.
Qed.

Lemma cached_fields d p :
  path (cached d p) = path p /\ vpath (cached d p) = vpath p /\
  file (cached d p) = file p /\ op (cached d p) = op p.
Proof.
  unfold cached.
  destruct (bool_decide (op p = patch_create) && bool_decide (digest p = None)); auto.
Qed.

Lemma zdir_patch_digest_set_live d s l p :
  patches s !! l = Some p ->
  zdir_patch_digest_set d (Some l) s = Returns (tt, updated l (cached d p) s).
Proof.
  intros Hl. unfold zdir_patch_digest_set, bind. rewrite (deref_live s l p Hl).
  mstep. unfold cached.
  destruct (bool_decide (op p = patch_create) && bool_decide (digest p = None)).
  - unfold store. now rewrite Hl.
  - unfold ret. now rewrite (updated_same s l p Hl).
Qed.

Lemma zdir_patch_digest_set_inv d self s s' :
  zdir_patch_digest_set d self s = Returns (tt, s') ->
  exists l p, self = Some l /\ patches s !! l = Some p /\ s' = updated l (cached d p) s.
Proof.
  intros Hrun. destruct self as [l|]; [|discriminate].
  destruct (patches s !! l) as [p|] eqn:Hl.
  - rewrite (zdir_patch_digest_set_live d s l p Hl) in Hrun.
    injection Hrun as <-. eauto.
  - unfold zdir_patch_digest_set, bind, deref in Hrun. rewrite Hl in Hrun. discriminate.
Qed.

Lemma zdir_patch_dup_live s l p :
  patches s !! l = Some p ->
  zdir_patch_dup (Some l) s =
  Returns (Some (fresh (dom (patches s))), allocated (copy_of p) s).
Proof.
  intros Hl. unfold zdir_patch_dup, bind. rewrite (deref_live s l p Hl).
  mstep. unfold alloc, allocated, copy_of, strdup.
  now destruct (digest p).
Qed.

Lemma zdir_patch_dup_inv self s copy s' :
  zdir_patch_dup self s = Returns (copy, s') ->
  exists l p, self = Some l /\ patches s !! l = Some p /\
              copy = Some (fresh (dom (patches s))) /\ s' = allocated (copy_of p) s.
Proof.
  intros Hrun. destruct self as [l|]; [|discriminate].
  destruct (patches s !! l) as [p|] eqn:Hl.
  - rewrite (zdir_patch_dup_live s l p Hl) in Hrun. injection Hrun as <- <-. eauto 10.
  - unfold zdir_patch_dup, bind, deref in Hrun. rewrite Hl in Hrun. discriminate.
Qed.

Lemma zdir_patch_destroy_null s x :
  refs s !! x = Some None -> zdir_patch_destroy (Some x) s = Returns (tt, s).
Proof.
  intros Hx. unfold zdir_patch_destroy, bind, assert, read_ref, ret.
  rewrite bool_decide_eq_true_2 by eauto. mstep. now rewrite Hx.
Qed.

Lemma zdir_patch_destroy_live s x l p :
  refs s !! x = Some (Some l) -> patches s !! l = Some p ->
  zdir_patch_destroy (Some x) s =
  Returns (tt, mk_state (delete l (patches s)) (<[x := None]> (refs s))).
Proof.
  intros Hx Hl. unfold zdir_patch_destroy, bind, assert, read_ref, ret.
  rewrite bool_decide_eq_true_2 by eauto. mstep. rewrite Hx.
  mstep. rewrite (deref_live s l p Hl).
  mstep. unfold free. rewrite Hl.
  mstep. unfold write_ref. cbn [refs patches]. now rewrite Hx.
Qed.

Lemma zdir_patch_destroy_inv self_p s s' :
  zdir_patch_destroy self_p s = Returns (tt, s') ->
  exists x, self_p = Some x /\
    ((refs s !! x = Some None /\ s' = s) \/
     (exists l p, refs s !! x = Some (Some l) /\ patches s !! l = Some p /\
                  s' = mk_state (delete l (patches s)) (<[x := None]> (refs s)))).
Proof.
  intros Hrun. destruct self_p as [x|]; [|discriminate]. exists x. split; [reflexivity|].
  destruct (refs s !! x) as [[l|]|] eqn:Hx.
  - destruct (patches s !! l) as [p|] eqn:Hl.
    + rewrite (zdir_patch_destroy_live s x l p Hx Hl) in Hrun. injection Hrun as <-.
      right. eauto 10.
    + unfold zdir_patch_destroy, bind, assert, read_ref, deref in Hrun.
      rewrite bool_decide_eq_true_2 in Hrun by eauto. mstep in Hrun.
      rewrite Hx in Hrun. mstep in Hrun. rewrite Hl in Hrun.
      discriminate.
  - rewrite (zdir_patch_destroy_null s x Hx) in Hrun. injection Hrun as <-. now left.
  - unfold zdir_patch_destroy, bind, assert, read_ref in Hrun.
    rewrite bool_decide_eq_true_2 in Hrun by eauto. mstep in Hrun.
    rewrite Hx in Hrun. discriminate.
Qed.

End CallFacts.

(** ** The digest invariant *)

Section Invariant.
Context {zfile_t disk : Type} `{!ZFile zfile_t disk}.
Implicit Types (s : state zfile_t) (p : zdir_patch_t zfile_t) (l : loc) (d : disk).

Lemma delete_has_no_digest_init : delete_has_no_digest (@init_state zfile_t).
Proof. intros l p Hl. cbn in Hl. now rewrite lookup_empty in Hl. Qed.

Lemma delete_has_no_digest_allocated s p :
  delete_has_no_digest s -> (op p = patch_delete -> digest p = None) ->
  delete_has_no_digest (allocated p s).
Proof.
  intros Hinv Hp l q Hl. unfold allocated in Hl. cbn in Hl.
  rewrite lookup_insert in Hl. case_decide.
  - injection Hl as <-. exact Hp.
  - now apply (Hinv l).
Qed.

Lemma delete_has_no_digest_updated s l p :
  delete_has_no_digest s -> (op p = patch_delete -> digest p = None) ->
  delete_has_no_digest (updated l p s).
Proof.
  intros Hinv Hp l' q Hl. unfold updated in Hl. cbn in Hl.
  rewrite lookup_insert in Hl. case_decide.
  - injection Hl as <-. exact Hp.
  - now apply (Hinv l').
Qed.

(** Every call that returns keeps the invariant. *)
Lemma delete_has_no_digest_step s s' :
  delete_has_no_digest s -> step s s' -> delete_has_no_digest s'.
Proof.
  intros Hinv [c Hc]. destruct c as [pa fi o al | self | d self | self_p | x v]; cbn in Hc.
  - unfold bind, ret in Hc.
    destruct (zdir_patch_new pa fi o al s) as [[q s1]| |] eqn:Hn; try discriminate.
    cbn in Hc. injection Hc as <-.
    apply zdir_patch_new_inv in Hn as (_ & _ & _ & _ & ->).
    now apply delete_has_no_digest_allocated.
  - unfold bind, ret in Hc.
    destruct (zdir_patch_dup self s) as [[q s1]| |] eqn:Hd; try discriminate.
    cbn in Hc. injection Hc as <-.
    apply zdir_patch_dup_inv in Hd as (l & p & _ & Hl & _ & ->).
    apply delete_has_no_digest_allocated; [assumption|].
    cbn. now apply (Hinv l).
  - apply zdir_patch_digest_set_inv in Hc as (l & p & _ & Hl & ->).
    apply delete_has_no_digest_updated; [assumption|].
    intros Hop. destruct (cached_fields d p) as (_ & _ & _ & Hop').
    rewrite Hop' in Hop. rewrite (cached_delete d p Hop). now apply (Hinv l).
  - apply zdir_patch_destroy_inv in Hc as (x & _ & [[_ ->] | (l & p & _ & _ & ->)]);
      [assumption|].
    intros l' q Hl'. cbn in Hl'. rewrite lookup_delete in Hl'. case_decide; [discriminate|].
    now apply (Hinv l').
  - unfold declare_ref in Hc. injection Hc as <-. exact Hinv.
Qed.

Lemma reachable_delete_has_no_digest s : reachable s -> delete_has_no_digest s.
Proof.
  unfold reachable. revert s.
  apply (rtc_ind_r (fun s => delete_has_no_digest s) init_state).
  - apply delete_has_no_digest_init.
  - intros s s' _ Hstep Hinv. now apply (delete_has_no_digest_step s s').
Qed.

(** On a delete patch any number of calls leaves the state as it is. *)
Lemma digest_set_many_delete (ds : list disk) s l p :
  patches s !! l = Some p -> op p = patch_delete ->
  digest_set_many ds (Some l) s = Returns (tt, s).
Proof.
  intros Hl Hop. induction ds as [|d ds IH]; [reflexivity|].
  cbn [digest_set_many]. unfold bind.
  rewrite (zdir_patch_digest_set_live d s l p Hl), (cached_delete d p Hop).
  rewrite (updated_same s l p Hl). mstep. exact IH.
Qed.

End Invariant.

(** ** Claims about the digest cache, duplication and destruction *)

Section CallClaims.
Context {zfile_t disk : Type} `{!ZFile zfile_t disk}.
Implicit Types (s : state zfile_t) (p : zdir_patch_t zfile_t) (l : loc) (d : disk).

(** C3.  The digest is only ever set on create patches.  A delete patch has
    no digest when the constructor returns it, and however many times
    [zdir_patch_digest_set] is then called on it, whatever is on disk at each
    call, every call returns and [zdir_patch_digest] still returns NULL.  More
    generally, in every state a program can reach, [zdir_patch_digest] on a
    live delete patch returns NULL. *)
Theorem zdir_patch_delete_digest_absent :
  (forall path (file : zfile_t) alias s self s1 (ds : list disk),
     zdir_patch_new path file patch_delete alias s = Returns (self, s1) ->
     zdir_patch_digest self s1 = Returns (None, s1) /\
     zdir_patch_op self s1 = Returns (patch_delete, s1) /\
     exists s2, digest_set_many ds self s1 = Returns (tt, s2) /\
                zdir_patch_digest self s2 = Returns (None, s2)) /\
  (forall s l p,
     reachable s -> patches s !! l = Some p -> op p = patch_delete ->
     digest p = None /\ zdir_patch_digest (Some l) s = Returns (None, s)).
Proof.
  split.
  - intros path file alias s self s1 ds Hnew.
    destruct (zdir_patch_new_inv _ _ _ _ _ _ _ Hnew) as (_ & _ & _ & -> & ->).
    pose proof (allocated_fresh s (built_patch path file patch_delete alias)) as Hl.
    rewrite (zdir_patch_digest_live _ _ _ Hl), (zdir_patch_op_live _ _ _ Hl).
    split; [reflexivity|]. split; [reflexivity|].
    eexists. split; [now apply (digest_set_many_delete ds _ _ _ Hl)|].
    now rewrite (zdir_patch_digest_live _ _ _ Hl).
  - intros s l p Hr Hl Hop.
    pose proof (reachable_delete_has_no_digest s Hr l p Hl Hop) as Hd.
    split; [exact Hd|]. rewrite (zdir_patch_digest_live s l p Hl). now rewrite Hd.
Qed.

(** C4.  [zdir_patch_digest_set] is idempotent: calling it twice in a row
    has the outcome of calling it once.  Once a digest is cached, a further
    call changes nothing, whatever is on disk by then. *)
Theorem zdir_patch_digest_set_idempotent :
  (forall d self s,
     bind (zdir_patch_digest_set d self) (fun _ => zdir_patch_digest_set d self) s =
     zdir_patch_digest_set d self s) /\
  (forall d self s dg,
     zdir_patch_digest self s = Returns (Some dg, s) ->
     zdir_patch_digest_set d self s = Returns (tt, s)).
Proof.
  split.
  - intros d self s. unfold bind.
    destruct (zdir_patch_digest_set d self s) as [[[] s1]| |] eqn:Hrun; [|reflexivity..].
    mstep.
    apply zdir_patch_digest_set_inv in Hrun as (l & p & -> & Hl & ->).
    assert (Hl' : patches (updated l (cached d p) s) !! l = Some (cached d p))
      by (cbn; apply lookup_insert_eq).
    rewrite (zdir_patch_digest_set_live d _ l _ Hl'), cached_again.
    now rewrite (updated_same _ l _ Hl').
  - intros d self s dg Hdig. destruct self as [l|]; [|discriminate].
    destruct (patches s !! l) as [p|] eqn:Hl.
    + rewrite (zdir_patch_digest_live s l p Hl) in Hdig. injection Hdig as Hd.
      rewrite (zdir_patch_digest_set_live d s l p Hl), (cached_present d p dg Hd).
      now rewrite (updated_same s l p Hl).
    + unfold zdir_patch_digest, bind, assert, deref in Hdig. cbn in Hdig.
      rewrite Hl in Hdig. discriminate.
Qed.

(** C5.  Duplicating a live patch returns a new patch.  [zdir_patch_path],
    [zdir_patch_vpath], [zdir_patch_op] and [zdir_patch_digest] return on the
    copy what they return on the original; the copy's file is a duplicate of
    the original's.  The digest is copied as it is, NULL when the original
    has none, and the original is left as it was. *)
Theorem zdir_patch_dup_observations s l p :
  patches s !! l = Some p ->
  exists c s',
    zdir_patch_dup (Some l) s = Returns (Some c, s') /\ c <> l /\
    zdir_patch_path (Some l) s = Returns (path p, s) /\
    zdir_patch_path (Some c) s' = Returns (path p, s') /\
    zdir_patch_vpath (Some l) s = Returns (vpath p, s) /\
    zdir_patch_vpath (Some c) s' = Returns (vpath p, s') /\
    zdir_patch_op (Some l) s = Returns (op p, s) /\
    zdir_patch_op (Some c) s' = Returns (op p, s') /\
    zdir_patch_digest (Some l) s = Returns (digest p, s) /\
    zdir_patch_digest (Some c) s' = Returns (digest p, s') /\
    zdir_patch_file (Some c) s' = Returns (zfile_dup (file p), s') /\
    patches s' !! l = Some p.
Proof.
  intros Hl. exists (fresh (dom (patches s))), (allocated (copy_of p) s).
  pose proof (allocated_fresh s (copy_of p)) as Hc.
  split; [now apply zdir_patch_dup_live|].
  split; [intros E; rewrite E in Hc; pose proof (fresh_not_live s) as Hf;
          rewrite E in Hf; congruence|].
  rewrite (zdir_patch_path_live _ _ _ Hl), (zdir_patch_path_live _ _ _ Hc).
  rewrite (zdir_patch_vpath_live _ _ _ Hl), (zdir_patch_vpath_live _ _ _ Hc).
  rewrite (zdir_patch_op_live _ _ _ Hl), (zdir_patch_op_live _ _ _ Hc).
  rewrite (zdir_patch_digest_live _ _ _ Hl), (zdir_patch_digest_live _ _ _ Hc).
  rewrite (zdir_patch_file_live _ _ _ Hc).
  repeat (split; [reflexivity|]).
  rewrite allocated_other by eauto. exact Hl.
Qed.

(** C7.  When [zdir_patch_destroy] returns, the caller's variable is NULL, the
    patch it pointed to is gone, and a second call on the same variable
    returns without changing anything. *)
Theorem zdir_patch_destroy_twice (x : var) s s1 :
  zdir_patch_destroy (Some x) s = Returns (tt, s1) ->
  refs s1 !! x = Some None /\
  (forall l, refs s !! x = Some (Some l) -> patches s1 !! l = None) /\
  zdir_patch_destroy (Some x) s1 = Returns (tt, s1).
Proof.
  intros Hrun.
  apply zdir_patch_destroy_inv in Hrun as (x' & [= <-] & [[Hx ->] | (l & p & Hx & Hl & ->)]).
  - split; [exact Hx|]. split; [intros l Hx'; congruence|].
    now apply zdir_patch_destroy_null.
  - assert (Hnull : refs (mk_state (delete l (patches s)) (<[x := None]> (refs s))) !! x
                    = Some None) by (cbn; apply lookup_insert_eq).
    split; [exact Hnull|]. split.
    + intros l' Hx'. rewrite Hx in Hx'. injection Hx' as <-. cbn. apply lookup_delete_eq.
    + now apply zdir_patch_destroy_null.
Qed.

(** C9.  [zdir_patch_digest_set] changes at most the digest of the patch it
    is called on: the path, virtual path, file and operation read after the
    call are those of the structure before it; every other patch and every
    pointer variable is as before. *)
Theorem zdir_patch_digest_set_frame d self s s' :
  zdir_patch_digest_set d self s = Returns (tt, s') ->
  exists l p,
    self = Some l /\ patches s !! l = Some p /\
    zdir_patch_path self s' = Returns (path p, s') /\
    zdir_patch_vpath self s' = Returns (vpath p, s') /\
    zdir_patch_file self s' = Returns (file p, s') /\
    zdir_patch_op self s' = Returns (op p, s') /\
    (forall l', l' <> l -> patches s' !! l' = patches s !! l') /\
    refs s' = refs s.
Proof.
  intros Hrun. apply zdir_patch_digest_set_inv in Hrun as (l & p & -> & Hl & ->).
  exists l, p. split; [reflexivity|]. split; [exact Hl|].
  assert (Hl' : patches (updated l (cached d p) s) !! l = Some (cached d p))
    by (cbn; apply lookup_insert_eq).
  destruct (cached_fields d p) as (Hpa & Hvp & Hfi & Hop).
  rewrite (zdir_patch_path_live _ _ _ Hl'), (zdir_patch_vpath_live _ _ _ Hl').
  rewrite (zdir_patch_file_live _ _ _ Hl'), (zdir_patch_op_live _ _ _ Hl').
  rewrite Hpa, Hvp, Hfi, Hop. repeat (split; [reflexivity|]).
  split; [|reflexivity].
  intros l' Hne. cbn. now apply lookup_insert_ne.
Qed.

End CallClaims.

(** ** The claims on concrete runs *)

Module Runs.
Import FileModel Samples.

(** The self test of the class passes and leaves nothing behind. *)
Example zdir_patch_test_passes :
  zdir_patch_test init_state = Returns (tt, bilbo_destroyed).
Proof. vm_compute. reflexivity. Qed.

(** Section 8 of the spec: directory [.], file [bilbo], alias [/]. *)
Example bilbo_scenario :
  zdir_patch_new "." bilbo patch_create "/" init_state = Returns (Some 1%positive, bilbo_state) /\
  zdir_patch_vpath (Some 1%positive) bilbo_state = Returns ("/bilbo", bilbo_state) /\
  zdir_patch_path (Some 1%positive) bilbo_state = Returns (".", bilbo_state) /\
  zfile_filename bilbo "." = "bilbo".
Proof. repeat split; vm_compute; reflexivity. Qed.

(** Section 8 of the spec: alias [/data], file [todo.txt] under [notes]. *)
Example todo_scenario :
  zdir_patch_new "notes" todo patch_delete "/data" init_state
    = Returns (Some 1%positive, todo_state) /\
  zdir_patch_vpath (Some 1%positive) todo_state = Returns ("/data/todo.txt", todo_state).
Proof. repeat split; vm_compute; reflexivity. Qed.

Lemma zdir_patch_new_vpath_correct_witness :
  "/data" <> "" /\
  starts_with_slash (zfile_filename todo "notes") = false /\
  addressable "/data" (zfile_filename todo "notes") /\
  exists self s',
    zdir_patch_new "notes" todo patch_delete "/data" init_state = Returns (self, s') /\
    zdir_patch_vpath self s' = Returns ("/data/todo.txt", s') /\
    zdir_patch_vpath self s' = Returns ("/data" +:+ "/" +:+ "todo.txt", s').
Proof.
  assert (H1 : "/data" <> "") by discriminate.
  assert (H2 : starts_with_slash (zfile_filename todo "notes") = false) by reflexivity.
  assert (H3 : addressable "/data" (zfile_filename todo "notes")) by (vm_compute; reflexivity).
  exact (conj H1 (conj H2 (conj H3
    (zdir_patch_new_vpath_correct "notes" todo patch_delete "/data" init_state H1 H2 H3)))).
Defined.

Lemma zdir_patch_new_assert_iff_witness :
  zdir_patch_new "." passwd patch_create "/data" init_state = AssertFailed /\
  ~ zdir_patch_new "." bilbo patch_create "/data" init_state = AssertFailed.
Proof.
  split.
  - apply (proj2 (zdir_patch_new_assert_iff "." passwd patch_create "/data" init_state)).
    exists "etc/passwd". reflexivity.
  - intros H.
    destruct (proj1 (zdir_patch_new_assert_iff "." bilbo patch_create "/data" init_state) H)
      as [rest Hrest].
    discriminate Hrest.
Defined.

Lemma zdir_patch_new_digest_absent_witness :
  zdir_patch_new "." bilbo patch_create "/" init_state = Returns (Some 1%positive, bilbo_state) /\
  zdir_patch_digest (Some 1%positive) bilbo_state = Returns (None, bilbo_state).
Proof.
  assert (H : zdir_patch_new "." bilbo patch_create "/" init_state
              = Returns (Some 1%positive, bilbo_state)) by (vm_compute; reflexivity).
  exact (conj H (zdir_patch_new_digest_absent _ _ _ _ _ _ _ H)).
Defined.

Lemma zdir_patch_new_alias_index_witness :
  (0 <= alias_last "/data" < strlen "/data" /\
   exists c, char_at "/data" (alias_last "/data") = Returns c) /\
  zdir_patch_new "." bilbo patch_create "" init_state = Undefined /\
  "/" <> "".
Proof.
  destruct (zdir_patch_new_alias_index (zfile_t := zfile) (disk := disk))
    as (Hin & _ & _ & Hempty & Hreq).
  split; [apply Hin; discriminate|]. split.
  - apply Hempty. reflexivity.
  - apply (Hreq "." bilbo patch_create "/" init_state (Some 1%positive) bilbo_state).
    vm_compute. reflexivity.
Defined.

Lemma zdir_patch_new_buffer_fits_witness :
  addressable "/data" (zfile_filename todo "notes") /\
  vpath_size "/data" "todo.txt" = 15 /\
  bytes_written ("/data" +:+ "/" +:+ "todo.txt") = 15 /\
  sprintf 15 "%s/%s" ["/data"; "todo.txt"] = Returns "/data/todo.txt".
Proof.
  assert (H : addressable "/data" (zfile_filename todo "notes")) by (vm_compute; reflexivity).
  destruct (zdir_patch_new_buffer_fits "notes" todo patch_delete "/data" init_state H)
    as (Hsize & _ & Hslash & _ & _ & _ & Hwrite & _).
  split; [exact H|]. split; [exact Hsize|]. split; [exact Hslash|]. exact Hwrite.
Defined.

Lemma zdir_patch_delete_digest_absent_witness :
  zdir_patch_new "." bilbo patch_delete "/" init_state
    = Returns (Some 1%positive, bilbo_gone_state) /\
  reachable bilbo_gone_state /\
  zdir_patch_digest (Some 1%positive) bilbo_gone_state = Returns (None, bilbo_gone_state) /\
  exists s2,
    digest_set_many [disk_before; disk_after; disk_after] (Some 1%positive) bilbo_gone_state
      = Returns (tt, s2) /\
    zdir_patch_digest (Some 1%positive) s2 = Returns (None, s2).
Proof.
  assert (Hnew : zdir_patch_new "." bilbo patch_delete "/" init_state
                 = Returns (Some 1%positive, bilbo_gone_state)) by (vm_compute; reflexivity).
  assert (Hreach : reachable bilbo_gone_state).
  { apply rtc_once. exists (CallNew "." bilbo patch_delete "/"). vm_compute. reflexivity. }
  assert (Hlive : patches bilbo_gone_state !! 1%positive
                  = Some (built_patch "." bilbo patch_delete "/")) by (vm_compute; reflexivity).
  destruct (zdir_patch_delete_digest_absent (zfile_t := zfile) (disk := disk))
    as [Hfresh Hall].
  destruct (Hfresh "." bilbo "/" init_state (Some 1%positive) bilbo_gone_state
              [disk_before; disk_after; disk_after] Hnew) as (_ & _ & Hmany).
  destruct (Hall bilbo_gone_state 1%positive _ Hreach Hlive eq_refl) as [_ Hdig].
  exact (conj Hnew (conj Hreach (conj Hdig Hmany))).
Defined.

Lemma zdir_patch_digest_set_idempotent_witness :
  zdir_patch_digest_set disk_before (Some 1%positive) bilbo_state = Returns (tt, bilbo_cached) /\
  bind (zdir_patch_digest_set disk_before (Some 1%positive))
       (fun _ => zdir_patch_digest_set disk_before (Some 1%positive)) bilbo_state
    = Returns (tt, bilbo_cached) /\
  zdir_patch_digest (Some 1%positive) bilbo_cached
    = Returns (Some "da39a3ee5e6b4b0d3255bfef95601890afd80709", bilbo_cached) /\
  zdir_patch_digest_set disk_after (Some 1%positive) bilbo_cached = Returns (tt, bilbo_cached).
Proof.
  assert (Hone : zdir_patch_digest_set disk_before (Some 1%positive) bilbo_state
                 = Returns (tt, bilbo_cached)) by (vm_compute; reflexivity).
  assert (Hdig : zdir_patch_digest (Some 1%positive) bilbo_cached
                 = Returns (Some "da39a3ee5e6b4b0d3255bfef95601890afd80709", bilbo_cached))
    by (vm_compute; reflexivity).
  destruct (zdir_patch_digest_set_idempotent (zfile_t := zfile) (disk := disk))
    as [Htwice Hcached].
  split; [exact Hone|]. split; [|split; [exact Hdig|]].
  - rewrite (Htwice disk_before (Some 1%positive) bilbo_state). exact Hone.
  - exact (Hcached disk_after _ _ _ Hdig).
Defined.

Lemma zdir_patch_dup_observations_witness :
  patches bilbo_cached !! 1%positive
    = Some (cached disk_before (built_patch "." bilbo patch_create "/")) /\
  exists c s',
    zdir_patch_dup (Some 1%positive) bilbo_cached = Returns (Some c, s') /\
    zdir_patch_vpath (Some c) s' = Returns ("/bilbo", s') /\
    zdir_patch_digest (Some c) s'
      = Returns (Some "da39a3ee5e6b4b0d3255bfef95601890afd80709", s').
Proof.
  assert (Hlive : patches bilbo_cached !! 1%positive
                  = Some (cached disk_before (built_patch "." bilbo patch_create "/")))
    by (vm_compute; reflexivity).
  destruct (zdir_patch_dup_observations bilbo_cached 1%positive _ Hlive)
    as (c & s' & Hdup & _ & _ & _ & _ & Hvp & _ & _ & _ & Hdig & _).
  split; [exact Hlive|]. exists c, s'.
  split; [exact Hdup|]. split; [exact Hvp | exact Hdig].
Defined.

Lemma zdir_patch_destroy_twice_witness :
  zdir_patch_destroy (Some 1%positive) bilbo_owned = Returns (tt, bilbo_destroyed) /\
  refs bilbo_destroyed !! 1%positive = Some None /\
  zdir_patch_destroy (Some 1%positive) bilbo_destroyed = Returns (tt, bilbo_destroyed).
Proof.
  assert (Hfirst : zdir_patch_destroy (Some 1%positive) bilbo_owned
                   = Returns (tt, bilbo_destroyed)) by (vm_compute; reflexivity).
  destruct (zdir_patch_destroy_twice 1%positive bilbo_owned bilbo_destroyed Hfirst)
    as (Hnull & _ & Hsecond).
  exact (conj Hfirst (conj Hnull Hsecond)).
Defined.

Lemma zdir_patch_digest_set_frame_witness :
  zdir_patch_digest_set disk_before (Some 1%positive) bilbo_state = Returns (tt, bilbo_cached) /\
  zdir_patch_path (Some 1%positive) bilbo_cached = Returns (".", bilbo_cached) /\
  zdir_patch_vpath (Some 1%positive) bilbo_cached = Returns ("/bilbo", bilbo_cached) /\
  zdir_patch_op (Some 1%positive) bilbo_cached = Returns (patch_create, bilbo_cached) /\
  refs bilbo_cached = refs bilbo_state.
Proof.
  assert (Hrun : zdir_patch_digest_set disk_before (Some 1%positive) bilbo_state
                 = Returns (tt, bilbo_cached)) by (vm_compute; reflexivity).
  destruct (zdir_patch_digest_set_frame disk_before (Some 1%positive) bilbo_state
              bilbo_cached Hrun)
    as (l & p & Hself & Hlive & Hpa & Hvp & _ & Hop & _ & Hrefs).
  injection Hself as <-.
  assert (Hp : p = built_patch "." bilbo patch_create "/").
  { assert (Hlive' : patches bilbo_state !! 1%positive
                     = Some (built_patch "." bilbo patch_create "/"))
      by (vm_compute; reflexivity).
    congruence. }
  subst p.
  exact (conj Hrun (conj Hpa (conj Hvp (conj Hop Hrefs)))).
Defined.

End Runs.

(** ** NULL and dangling pointers *)

Section PointerFacts.
Context {zfile_t disk : Type} `{!ZFile zfile_t disk}.
Implicit Types (s : state zfile_t) (p : zdir_patch_t zfile_t) (l : loc) (d : disk).

Lemma deref_dangling s l : patches s !! l = None -> deref (Some l) s = Undefined.
Proof. intros Hl. unfold deref. now rewrite Hl. Qed.

Lemma assert_non_null s l :
  assert (bool_decide (is_Some (Some l))) s = Returns (tt, s).
Proof. unfold assert. now rewrite bool_decide_eq_true_2 by eauto. Qed.

Lemma assert_null {A : Type} s :
  assert (bool_decide (is_Some (@None A))) s = AssertFailed.
Proof.
  unfold assert. rewrite bool_decide_eq_false_2; [reflexivity|].
  intros [v Hv]. discriminate.
Qed.

Lemma destroyed_patches x l s l' :
  l' <> l -> patches (destroyed x l s) !! l' = patches s !! l'.
Proof. intros Hne. cbn. now apply lookup_delete_ne. Qed.

Lemma destroyed_freed x l s : patches (destroyed x l s) !! l = None.
Proof. cbn. apply lookup_delete_eq. Qed.

Lemma destroyed_allocated x p s :
  patches (destroyed x (fresh (dom (patches s))) (allocated p s)) = patches s.
Proof.
  cbn. rewrite delete_insert_eq. apply delete_id, fresh_not_live.
Qed.

End PointerFacts.

(** ** Further properties of the constructor *)

Section NewProperties.
Context {zfile_t disk : Type} `{!ZFile zfile_t disk}.
Implicit Types (path alias : string) (file : zfile_t) (op : zdir_patch_op_t).
Implicit Types (s : state zfile_t) (l : loc).

(** X1.  What the constructor was given is what the accessors give back:
    on the new patch [zdir_patch_path] returns the path, [zdir_patch_op] the
    operation and [zdir_patch_file] the duplicate taken of the file. *)
Theorem zdir_patch_new_accessors path file op alias s self s' :
  zdir_patch_new path file op alias s = Returns (self, s') ->
  zdir_patch_path self s' = Returns (path, s') /\
  zdir_patch_op self s' = Returns (op, s') /\
  zdir_patch_file self s' = Returns (zfile_dup file, s').
Proof.
  intros Hnew. apply zdir_patch_new_inv in Hnew as (_ & _ & _ & -> & ->).
  pose proof (allocated_fresh s (built_patch path file op alias)) as Hl.
  rewrite (zdir_patch_path_live _ _ _ Hl), (zdir_patch_op_live _ _ _ Hl).
  rewrite (zdir_patch_file_live _ _ _ Hl). auto.
Qed.

(** X2.  The constructor returns a non-NULL pointer to an address that was
    not in use, and leaves every patch that was live and every pointer
    variable as it was. *)
Theorem zdir_patch_new_frame path file op alias s self s' :
  zdir_patch_new path file op alias s = Returns (self, s') ->
  exists l,
    self = Some l /\ patches s !! l = None /\ is_Some (patches s' !! l) /\
    (forall l', l' <> l -> patches s' !! l' = patches s !! l') /\
    refs s' = refs s.
Proof.
  intros Hnew. apply zdir_patch_new_inv in Hnew as (_ & _ & _ & -> & ->).
  exists (fresh (dom (patches s))).
  split; [reflexivity|]. split; [apply fresh_not_live|].
  split; [rewrite allocated_fresh; eauto|].
  split; [|reflexivity].
  intros l' Hne. unfold allocated. cbn. now apply lookup_insert_ne.
Qed.

(** X3.  Under one alias, two constructions that yield the same virtual
    path were made for the same relative file name: the virtual path
    determines the file name. *)
Theorem zdir_patch_new_vpath_injective
    path1 file1 op1 s1 self1 s1' path2 file2 op2 s2 self2 s2' alias v :
  zdir_patch_new path1 file1 op1 alias s1 = Returns (self1, s1') ->
  zdir_patch_new path2 file2 op2 alias s2 = Returns (self2, s2') ->
  zdir_patch_vpath self1 s1' = Returns (v, s1') ->
  zdir_patch_vpath self2 s2' = Returns (v, s2') ->
  zfile_filename file1 path1 = zfile_filename file2 path2.
Proof.
  intros Hnew1 Hnew2 Hv1 Hv2.
  apply zdir_patch_new_inv in Hnew1 as (_ & _ & _ & -> & ->).
  apply zdir_patch_new_inv in Hnew2 as (_ & _ & _ & -> & ->).
  rewrite (zdir_patch_vpath_live _ _ _ (allocated_fresh s1 _)) in Hv1.
  rewrite (zdir_patch_vpath_live _ _ _ (allocated_fresh s2 _)) in Hv2.
  injection Hv1 as Hv1. injection Hv2 as Hv2. cbn [vpath built_patch] in Hv1, Hv2.
  rewrite <- Hv2 in Hv1. unfold expected_vpath in Hv1.
  destruct (ends_with_slash alias).
  - now apply (inj (String.app alias)) in Hv1.
  - apply (inj (String.app alias)) in Hv1. now apply (inj (String.app "/")) in Hv1.
Qed.

End NewProperties.

(** ** Further properties of the digest cache *)

Section DigestProperties.
Context {zfile_t disk : Type} `{!ZFile zfile_t disk}.
Implicit Types (s : state zfile_t) (p : zdir_patch_t zfile_t) (l : loc) (d : disk).

Lemma updated_live s l p : patches (updated l p s) !! l = Some p.
Proof. cbn. apply lookup_insert_eq. Qed.

Lemma updated_twice s l p q : updated l q (updated l p s) = updated l q s.
Proof. apply state_eq; cbn; [apply insert_insert_eq|reflexivity]. Qed.

(** X4.  On a create patch without a digest, [zdir_patch_digest_set] stores
    what [zfile_digest] returns for the patch's file.  A digest that was
    obtained stays, whatever a later call finds on disk; a failed attempt
    leaves the patch without a digest, and the next call tries again with
    the disk as it is then. *)
Theorem zdir_patch_digest_set_first_and_next (d1 d2 : disk) s l p :
  patches s !! l = Some p -> op p = patch_create -> digest p = None ->
  exists s1 s2,
    zdir_patch_digest_set d1 (Some l) s = Returns (tt, s1) /\
    zdir_patch_digest (Some l) s1 = Returns (zfile_digest d1 (file p), s1) /\
    zdir_patch_digest_set d2 (Some l) s1 = Returns (tt, s2) /\
    zdir_patch_digest (Some l) s2 =
      Returns (match zfile_digest d1 (file p) with
               | Some dg => Some dg
               | None => zfile_digest d2 (file p)
               end, s2).
Proof.
  intros Hl Hop Hd.
  set (p1 := cached d1 p).
  exists (updated l p1 s), (updated l (cached d2 p1) s).
  pose proof (updated_live s l p1) as Hl1.
  pose proof (updated_live s l (cached d2 p1)) as Hl2.
  split; [now apply zdir_patch_digest_set_live|].
  split.
  { rewrite (zdir_patch_digest_live _ _ _ Hl1). unfold p1.
    now rewrite (cached_absent d1 p Hop Hd). }
  split.
  { rewrite (zdir_patch_digest_set_live d2 _ l p1 Hl1). now rewrite updated_twice. }
  rewrite (zdir_patch_digest_live _ _ _ Hl2). unfold p1.
  rewrite (cached_absent d1 p Hop Hd).
  destruct (zfile_digest d1 (file p)) as [dg|] eqn:Hz.
  - now rewrite (cached_present d2 _ dg) by reflexivity.
  - now rewrite cached_absent by (cbn; first [assumption | reflexivity]).
Qed.

(** X5.  No call changes the path, virtual path, file or operation of a
    patch that stays live, and none removes or replaces a digest once it is
    there: in one call the digest can only go from absent to present. *)
Theorem step_keeps_patch s s' l p p' :
  step s s' -> patches s !! l = Some p -> patches s' !! l = Some p' ->
  path p' = path p /\ vpath p' = vpath p /\ file p' = file p /\ op p' = op p /\
  (forall dg, digest p = Some dg -> digest p' = Some dg).
Proof.
  intros [c Hc] Hl Hl'.
  assert (Hsame : p' = p -> path p' = path p /\ vpath p' = vpath p /\
                  file p' = file p /\ op p' = op p /\
                  (forall dg, digest p = Some dg -> digest p' = Some dg))
    by (intros ->; auto).
  destruct c as [pa fi o al | self | d self | self_p | x v]; cbn in Hc.
  - unfold bind, ret in Hc.
    destruct (zdir_patch_new pa fi o al s) as [[q s1]| |] eqn:Hn; try discriminate.
    cbn in Hc. injection Hc as <-.
    apply zdir_patch_new_inv in Hn as (_ & _ & _ & _ & ->).
    rewrite allocated_other in Hl' by eauto. apply Hsame. congruence.
  - unfold bind, ret in Hc.
    destruct (zdir_patch_dup self s) as [[q s1]| |] eqn:Hd; try discriminate.
    cbn in Hc. injection Hc as <-.
    apply zdir_patch_dup_inv in Hd as (l0 & p0 & _ & _ & _ & ->).
    rewrite allocated_other in Hl' by eauto. apply Hsame. congruence.
  - apply zdir_patch_digest_set_inv in Hc as (l0 & p0 & _ & Hl0 & ->).
    cbn in Hl'. rewrite lookup_insert in Hl'. case_decide as Heq.
    + subst l0. injection Hl' as <-. rewrite Hl in Hl0. injection Hl0 as <-.
      destruct (cached_fields d p) as (Hpa & Hvp & Hfi & Hop).
      repeat (split; [assumption|]).
      intros dg Hdg. now rewrite (cached_present d p dg Hdg).
    + apply Hsame. congruence.
  - apply zdir_patch_destroy_inv in Hc as (x & _ & [[_ ->] | (l0 & p0 & _ & _ & ->)]).
    + apply Hsame. congruence.
    + cbn in Hl'. rewrite lookup_delete in Hl'. case_decide; [discriminate|].
      apply Hsame. congruence.
  - unfold declare_ref in Hc. injection Hc as <-. cbn in Hl'.
    apply Hsame. congruence.
Qed.

End DigestProperties.

(** ** Further properties of pointers, destruction and duplication *)

Section PointerProperties.
Context {zfile_t disk : Type} `{!ZFile zfile_t disk}.
Implicit Types (s : state zfile_t) (p : zdir_patch_t zfile_t) (l : loc) (d : disk).
Implicit Types (x y : var).

Lemma zdir_patch_path_dangling s l :
  patches s !! l = None -> zdir_patch_path (Some l) s = Undefined.
Proof.
  intros Hl. unfold zdir_patch_path, bind. rewrite assert_non_null. mstep.
  now rewrite (deref_dangling s l Hl).
Qed.

Lemma zdir_patch_vpath_dangling s l :
  patches s !! l = None -> zdir_patch_vpath (Some l) s = Undefined.
Proof.
  intros Hl. unfold zdir_patch_vpath, bind. rewrite assert_non_null. mstep.
  now rewrite (deref_dangling s l Hl).
Qed.

Lemma zdir_patch_file_dangling s l :
  patches s !! l = None -> zdir_patch_file (Some l) s = Undefined.
Proof.
  intros Hl. unfold zdir_patch_file, bind. rewrite assert_non_null. mstep.
  now rewrite (deref_dangling s l Hl).
Qed.

Lemma zdir_patch_op_dangling s l :
  patches s !! l = None -> zdir_patch_op (Some l) s = Undefined.
Proof.
  intros Hl. unfold zdir_patch_op, bind. rewrite assert_non_null. mstep.
  now rewrite (deref_dangling s l Hl).
Qed.

Lemma zdir_patch_digest_dangling s l :
  patches s !! l = None -> zdir_patch_digest (Some l) s = Undefined.
Proof.
  intros Hl. unfold zdir_patch_digest, bind. rewrite assert_non_null. mstep.
  now rewrite (deref_dangling s l Hl).
Qed.

Lemma zdir_patch_dup_dangling s l :
  patches s !! l = None -> zdir_patch_dup (Some l) s = Undefined.
Proof. intros Hl. unfold zdir_patch_dup, bind. now rewrite (deref_dangling s l Hl). Qed.

Lemma zdir_patch_digest_set_dangling d s l :
  patches s !! l = None -> zdir_patch_digest_set d (Some l) s = Undefined.
Proof.
  intros Hl. unfold zdir_patch_digest_set, bind. now rewrite (deref_dangling s l Hl).
Qed.

Lemma zdir_patch_destroy_dangling s x l :
  refs s !! x = Some (Some l) -> patches s !! l = None ->
  zdir_patch_destroy (Some x) s = Undefined.
Proof.
  intros Hx Hl. unfold zdir_patch_destroy, bind, read_ref. rewrite assert_non_null.
  mstep. rewrite Hx. mstep. now rewrite (deref_dangling s l Hl).
Qed.

Lemma zdir_patch_destroy_owner s x l p :
  refs s !! x = Some (Some l) -> patches s !! l = Some p ->
  zdir_patch_destroy (Some x) s = Returns (tt, destroyed x l s).
Proof. apply zdir_patch_destroy_live. Qed.

(** X6.  The accessors and the destructor check their argument: given NULL
    they stop on the assertion.  [zdir_patch_dup] and
    [zdir_patch_digest_set] do not: given NULL they read through it. *)
Theorem null_argument s d :
  zdir_patch_path None s = AssertFailed /\
  zdir_patch_vpath None s = AssertFailed /\
  zdir_patch_file None s = AssertFailed /\
  zdir_patch_op None s = AssertFailed /\
  zdir_patch_digest None s = AssertFailed /\
  zdir_patch_destroy None s = AssertFailed /\
  zdir_patch_dup None s = Undefined /\
  zdir_patch_digest_set d None s = Undefined.
Proof.
  unfold zdir_patch_path, zdir_patch_vpath, zdir_patch_file, zdir_patch_op,
    zdir_patch_digest, zdir_patch_destroy, bind.
  rewrite !assert_null. repeat (split; [reflexivity|]). split; reflexivity.
Qed.

(** X7.  Destruction nulls the caller's variable only: any other copy of
    the pointer is left dangling, and every function of the class reads
    freed memory when handed it. *)
Theorem use_after_destroy s x l s1 d :
  refs s !! x = Some (Some l) ->
  zdir_patch_destroy (Some x) s = Returns (tt, s1) ->
  zdir_patch_path (Some l) s1 = Undefined /\
  zdir_patch_vpath (Some l) s1 = Undefined /\
  zdir_patch_file (Some l) s1 = Undefined /\
  zdir_patch_op (Some l) s1 = Undefined /\
  zdir_patch_digest (Some l) s1 = Undefined /\
  zdir_patch_dup (Some l) s1 = Undefined /\
  zdir_patch_digest_set d (Some l) s1 = Undefined.
Proof.
  intros Hx Hrun.
  apply zdir_patch_destroy_inv in Hrun as (x' & [= <-] & [[Hx' _] | (l' & p & Hx' & _ & ->)]);
    [congruence|].
  rewrite Hx in Hx'. injection Hx' as <-. fold (destroyed x l s).
  pose proof (destroyed_freed x l s) as Hl.
  rewrite (zdir_patch_path_dangling _ _ Hl), (zdir_patch_vpath_dangling _ _ Hl).
  rewrite (zdir_patch_file_dangling _ _ Hl), (zdir_patch_op_dangling _ _ Hl).
  rewrite (zdir_patch_digest_dangling _ _ Hl), (zdir_patch_dup_dangling _ _ Hl).
  rewrite (zdir_patch_digest_set_dangling d _ _ Hl). auto 10.
Qed.

(** X8.  Destroying twice is safe only through the same variable: when two
    variables hold the same patch, destroying through one and then through
    the other frees the patch twice. *)
Theorem zdir_patch_destroy_aliased s x y l s1 :
  x <> y ->
  refs s !! x = Some (Some l) -> refs s !! y = Some (Some l) ->
  zdir_patch_destroy (Some x) s = Returns (tt, s1) ->
  refs s1 !! y = Some (Some l) /\
  zdir_patch_destroy (Some y) s1 = Undefined.
Proof.
  intros Hne Hx Hy Hrun.
  apply zdir_patch_destroy_inv in Hrun as (x' & [= <-] & [[Hx' _] | (l' & p & Hx' & _ & ->)]);
    [congruence|].
  rewrite Hx in Hx'. injection Hx' as <-. fold (destroyed x l s).
  assert (Hy1 : refs (destroyed x l s) !! y = Some (Some l))
    by (cbn; now rewrite lookup_insert_ne).
  split; [exact Hy1|].
  exact (zdir_patch_destroy_dangling _ y l Hy1 (destroyed_freed x l s)).
Qed.

(** X9.  The destructor frees the one patch the variable points to and
    writes that one variable: every other patch and every other variable is
    as before. *)
Theorem zdir_patch_destroy_frame s x s1 :
  zdir_patch_destroy (Some x) s = Returns (tt, s1) ->
  (forall y, y <> x -> refs s1 !! y = refs s !! y) /\
  (forall l, refs s !! x <> Some (Some l) -> patches s1 !! l = patches s !! l).
Proof.
  intros Hrun.
  apply zdir_patch_destroy_inv in Hrun as (x' & [= <-] & [[Hx ->] | (l' & p & Hx & _ & ->)]).
  - auto.
  - split.
    + intros y Hne. cbn. now apply lookup_insert_ne.
    + intros l Hl. apply destroyed_patches. congruence.
Qed.

(** X10.  Construction and destruction undo each other: keeping the new
    pointer in a variable and destroying through that variable leaves
    exactly the patches there were before the construction. *)
Theorem zdir_patch_new_destroy_roundtrip path (file : zfile_t) op alias s self s1 x :
  zdir_patch_new path file op alias s = Returns (self, s1) ->
  exists s3,
    bind (declare_ref x self) (fun _ => zdir_patch_destroy (Some x)) s1 = Returns (tt, s3) /\
    patches s3 = patches s /\
    refs s3 = <[x := None]> (refs s).
Proof.
  intros Hnew. apply zdir_patch_new_inv in Hnew as (_ & _ & _ & -> & ->).
  set (l := fresh (dom (patches s))). set (bp := built_patch path file op alias).
  set (s2 := mk_state (patches (allocated bp s)) (<[x := Some l]> (refs s))).
  exists (destroyed x l s2). split; [|split].
  - unfold bind, declare_ref. mstep. fold l. cbn [refs allocated]. fold s2.
    apply (zdir_patch_destroy_owner s2 x l bp).
    + cbn. apply lookup_insert_eq.
    + apply allocated_fresh.
  - cbn. rewrite delete_insert_eq. apply delete_id, fresh_not_live.
  - cbn. apply insert_insert_eq.
Qed.

(** X11.  A copy outlives its original: after the original was destroyed,
    the copy still gives the path, virtual path, operation and digest the
    original had. *)
Theorem zdir_patch_dup_outlives_original s x l p :
  refs s !! x = Some (Some l) -> patches s !! l = Some p ->
  exists c s1 s2,
    zdir_patch_dup (Some l) s = Returns (Some c, s1) /\
    zdir_patch_destroy (Some x) s1 = Returns (tt, s2) /\
    zdir_patch_path (Some l) s2 = Undefined /\
    zdir_patch_path (Some c) s2 = Returns (path p, s2) /\
    zdir_patch_vpath (Some c) s2 = Returns (vpath p, s2) /\
    zdir_patch_op (Some c) s2 = Returns (op p, s2) /\
    zdir_patch_digest (Some c) s2 = Returns (digest p, s2).
Proof.
  intros Hx Hl.
  set (c := fresh (dom (patches s))). set (s1 := allocated (copy_of p) s).
  assert (Hcl : c <> l).
  { intros E. pose proof (fresh_not_live s) as Hf. fold c in Hf. rewrite E in Hf. congruence. }
  assert (Hl1 : patches s1 !! l = Some p).
  { unfold s1. rewrite allocated_other by eauto. exact Hl. }
  assert (Hc2 : patches (destroyed x l s1) !! c = Some (copy_of p)).
  { rewrite destroyed_patches by exact Hcl. apply allocated_fresh. }
  exists c, s1, (destroyed x l s1).
  split; [now apply zdir_patch_dup_live|].
  split; [now apply (zdir_patch_destroy_owner s1 x l p)|].
  split; [apply zdir_patch_path_dangling, destroyed_freed|].
  rewrite (zdir_patch_path_live _ _ _ Hc2), (zdir_patch_vpath_live _ _ _ Hc2).
  rewrite (zdir_patch_op_live _ _ _ Hc2), (zdir_patch_digest_live _ _ _ Hc2).
  auto.
Qed.

(** X12.  Original and copy cache their digests separately: after a
    duplication, [zdir_patch_digest_set] on the one leaves the digest of the
    other as it was when the copy was made. *)
Theorem zdir_patch_dup_digest_separate s l p d :
  patches s !! l = Some p ->
  exists c s1 s2 s3,
    zdir_patch_dup (Some l) s = Returns (Some c, s1) /\
    zdir_patch_digest_set d (Some l) s1 = Returns (tt, s2) /\
    zdir_patch_digest (Some c) s2 = Returns (digest p, s2) /\
    zdir_patch_digest_set d (Some c) s1 = Returns (tt, s3) /\
    zdir_patch_digest (Some l) s3 = Returns (digest p, s3).
Proof.
  intros Hl.
  set (c := fresh (dom (patches s))). set (s1 := allocated (copy_of p) s).
  assert (Hcl : c <> l).
  { intros E. pose proof (fresh_not_live s) as Hf. fold c in Hf. rewrite E in Hf. congruence. }
  assert (Hl1 : patches s1 !! l = Some p).
  { unfold s1. rewrite allocated_other by eauto. exact Hl. }
  assert (Hc1 : patches s1 !! c = Some (copy_of p)) by apply allocated_fresh.
  exists c, s1, (updated l (cached d p) s1), (updated c (cached d (copy_of p)) s1).
  split; [now apply zdir_patch_dup_live|].
  split; [now apply zdir_patch_digest_set_live|].
  assert (Hc2 : patches (updated l (cached d p) s1) !! c = Some (copy_of p))
    by (cbn; now rewrite lookup_insert_ne).
  assert (Hl3 : patches (updated c (cached d (copy_of p)) s1) !! l = Some p)
    by (cbn; now rewrite lookup_insert_ne).
  rewrite (zdir_patch_digest_live _ _ _ Hc2), (zdir_patch_digest_live _ _ _ Hl3).
  split; [reflexivity|]. split; [now apply zdir_patch_digest_set_live|reflexivity].
Qed.

End PointerProperties.

(** ** The separator invariant of virtual paths *)

Section SeparatorInvariant.
Context {zfile_t disk : Type} `{!ZFile zfile_t disk}.
Implicit Types (s : state zfile_t) (p : zdir_patch_t zfile_t) (l : loc).

Lemma contains_slash_app (a b : string) :
  contains_slash (a +:+ b) = contains_slash a || contains_slash b.
Proof.
  induction a as [|c a IH]; [reflexivity|].
  rewrite app_cons. cbn [contains_slash]. rewrite IH. apply orb_assoc.
Qed.

Lemma contains_slash_last (a : string) :
  ends_with_slash a = true -> contains_slash a = true.
Proof.
  unfold ends_with_slash. intros Hc. apply Ascii.eqb_eq in Hc.
  assert (Hne : a <> "") by (intros ->; discriminate).
  rewrite (chop_last a Hne), Hc, contains_slash_app. apply orb_true_r.
Qed.

Lemma contains_slash_expected_vpath (alias f : string) :
  contains_slash (expected_vpath alias f) = true.
Proof.
  unfold expected_vpath. destruct (ends_with_slash alias) eqn:E.
  - rewrite contains_slash_app, (contains_slash_last alias E). reflexivity.
  - rewrite !contains_slash_app. change (contains_slash "/") with true.
    cbn [orb]. apply orb_true_r.
Qed.

Lemma contains_slash_nonempty (v : string) : contains_slash v = true -> v <> "".
Proof. intros Hv ->. discriminate. Qed.

Lemma vpaths_have_separator_step s s' :
  vpaths_have_separator s -> step s s' -> vpaths_have_separator s'.
Proof.
  intros Hinv [c Hc]. destruct c as [pa fi o al | self | d self | self_p | x v]; cbn in Hc.
  - unfold bind, ret in Hc.
    destruct (zdir_patch_new pa fi o al s) as [[q s1]| |] eqn:Hn; try discriminate.
    cbn in Hc. injection Hc as <-.
    apply zdir_patch_new_inv in Hn as (_ & _ & _ & _ & ->).
    intros l p Hl. unfold allocated in Hl. cbn in Hl.
    rewrite lookup_insert in Hl. case_decide.
    + injection Hl as <-. apply contains_slash_expected_vpath.
    + now apply (Hinv l).
  - unfold bind, ret in Hc.
    destruct (zdir_patch_dup self s) as [[q s1]| |] eqn:Hd; try discriminate.
    cbn in Hc. injection Hc as <-.
    apply zdir_patch_dup_inv in Hd as (l0 & p0 & _ & Hl0 & _ & ->).
    intros l p Hl. unfold allocated in Hl. cbn in Hl.
    rewrite lookup_insert in Hl. case_decide.
    + injection Hl as <-. cbn. now apply (Hinv l0).
    + now apply (Hinv l).
  - apply zdir_patch_digest_set_inv in Hc as (l0 & p0 & _ & Hl0 & ->).
    intros l p Hl. cbn in Hl. rewrite lookup_insert in Hl. case_decide.
    + injection Hl as <-. destruct (cached_fields d p0) as (_ & -> & _).
      now apply (Hinv l0).
    + now apply (Hinv l).
  - apply zdir_patch_destroy_inv in Hc as (x & _ & [[_ ->] | (l0 & p0 & _ & _ & ->)]);
      [assumption|].
    intros l p Hl. cbn in Hl. rewrite lookup_delete in Hl. case_decide; [discriminate|].
    now apply (Hinv l).
  - unfold declare_ref in Hc. injection Hc as <-. exact Hinv.
Qed.

(** X13.  In every state a program can reach, the virtual path of every
    live patch contains a separator; in particular it is never empty. *)
Theorem reachable_vpath_has_separator s l p :
  reachable s -> patches s !! l = Some p ->
  exists v, zdir_patch_vpath (Some l) s = Returns (v, s) /\
            contains_slash v = true /\ v <> "".
Proof.
  intros Hr Hl. exists (vpath p).
  split; [now apply zdir_patch_vpath_live|].
  assert (Hinv : vpaths_have_separator s).
  { revert Hr. unfold reachable. revert s Hl.
    intros s _. revert s.
    apply (rtc_ind_r (fun s => vpaths_have_separator s) init_state).
    - intros l0 p0 Hl0. cbn in Hl0. now rewrite lookup_empty in Hl0.
    - intros s0 s1 _ Hstep Hinv0. now apply (vpaths_have_separator_step s0 s1). }
  pose proof (Hinv l p Hl) as Hv. split; [exact Hv|].
  now apply contains_slash_nonempty.
Qed.

End SeparatorInvariant.

(** ** Framing of duplication and of the accessors *)

Section FrameProperties.
Context {zfile_t disk : Type} `{!ZFile zfile_t disk}.
Implicit Types (s : state zfile_t) (p : zdir_patch_t zfile_t) (l : loc).

(** X15.  Duplication returns a non-NULL pointer to an address that was not
    in use and touches nothing else: every patch that was live, the original
    included, and every pointer variable is as before. *)
Theorem zdir_patch_dup_frame self s copy s' :
  zdir_patch_dup self s = Returns (copy, s') ->
  exists c,
    copy = Some c /\ patches s !! c = None /\ is_Some (patches s' !! c) /\
    (forall l, l <> c -> patches s' !! l = patches s !! l) /\
    refs s' = refs s.
Proof.
  intros Hdup. apply zdir_patch_dup_inv in Hdup as (l0 & p0 & _ & _ & -> & ->).
  exists (fresh (dom (patches s))).
  split; [reflexivity|]. split; [apply fresh_not_live|].
  split; [rewrite allocated_fresh; eauto|].
  split; [|reflexivity].
  intros l Hne. unfold allocated. cbn. now apply lookup_insert_ne.
Qed.

Lemma accessor_state {A : Type} (get : zdir_patch_t zfile_t -> A) self s v s' :
  bind (assert (bool_decide (is_Some self)))
       (fun _ => bind (deref self) (fun p => ret (get p))) s = Returns (v, s') ->
  s' = s /\ exists l p, self = Some l /\ patches s !! l = Some p /\ v = get p.
Proof.
  intros Hrun. destruct self as [l|].
  - unfold bind in Hrun. rewrite assert_non_null in Hrun. mstep in Hrun.
    destruct (patches s !! l) as [p|] eqn:Hl.
    + rewrite (deref_live s l p Hl) in Hrun. mstep in Hrun. unfold ret in Hrun.
      injection Hrun as <- <-. eauto 10.
    + rewrite (deref_dangling s l Hl) in Hrun. discriminate.
  - unfold bind in Hrun. rewrite assert_null in Hrun. discriminate.
Qed.

(** X16.  The accessors only read.  When one returns, the state is the one
    it was called in, the pointer was that of a live patch, and the value is
    that patch's field; [zdir_patch_digest] in particular returns the cached
    digest or NULL and never computes one. *)
Theorem accessors_read_only self s s' :
  (forall v, zdir_patch_path self s = Returns (v, s') ->
     s' = s /\ exists l p, self = Some l /\ patches s !! l = Some p /\ v = path p) /\
  (forall v, zdir_patch_vpath self s = Returns (v, s') ->
     s' = s /\ exists l p, self = Some l /\ patches s !! l = Some p /\ v = vpath p) /\
  (forall v, zdir_patch_file self s = Returns (v, s') ->
     s' = s /\ exists l p, self = Some l /\ patches s !! l = Some p /\ v = file p) /\
  (forall v, zdir_patch_op self s = Returns (v, s') ->
     s' = s /\ exists l p, self = Some l /\ patches s !! l = Some p /\ v = op p) /\
  (forall v, zdir_patch_digest self s = Returns (v, s') ->
     s' = s /\ exists l p, self = Some l /\ patches s !! l = Some p /\ v = digest p).
Proof.
  split; [|split; [|split; [|split]]]; intros v Hrun.
  - exact (accessor_state path self s v s' Hrun).
  - exact (accessor_state vpath self s v s' Hrun).
  - exact (accessor_state file self s v s' Hrun).
  - exact (accessor_state op self s v s' Hrun).
  - exact (accessor_state digest self s v s' Hrun).
Qed.

End FrameProperties.

(** ** The self test *)

Module SelfTest.
Import FileModel Samples.

Lemma bind_returns {F A B : Type} (m : M F A) (k : A -> M F B) s a s1 :
  m s = Returns (a, s1) -> bind m k s = k a s1.
Proof. intros Hm. unfold bind. now rewrite Hm. Qed.

(** X14.  The self test of the class passes in whatever state it is started:
    the constructor returns, both assertions hold, and once the patch is
    destroyed the live patches are exactly those there were before; only
    the test's own variable, now NULL, is left. *)
Theorem zdir_patch_test_no_leak (s : state zfile) :
  zdir_patch_test s = Returns (tt, mk_state (patches s) (<[1%positive := None]> (refs s))).
Proof.
  unfold zdir_patch_test.
  set (bp := built_patch "." (zfile_new "." "bilbo") patch_create "/").
  set (l := fresh (dom (patches s))).
  set (s2 := mk_state (patches (allocated bp s)) (<[1%positive := Some l]> (refs s))).
  assert (Hl2 : patches s2 !! l = Some bp) by apply allocated_fresh.
  rewrite (bind_returns _ _ s (Some l) (allocated bp s));
    [|apply zdir_patch_new_returns; [reflexivity | discriminate | vm_compute; reflexivity]].
  rewrite (bind_returns _ _ _ tt s2) by reflexivity.
  rewrite (bind_returns _ _ _ _ _ (zdir_patch_file_live s2 l bp Hl2)).
  rewrite (bind_returns _ _ _ tt s2) by reflexivity.
  rewrite (bind_returns _ _ _ _ _ (zdir_patch_vpath_live s2 l bp Hl2)).
  rewrite (bind_returns _ _ _ tt s2) by reflexivity.
  rewrite (zdir_patch_destroy_owner s2 1%positive l bp); [|apply lookup_insert_eq|exact Hl2].
  f_equal. f_equal. apply state_eq; cbn.
  - rewrite delete_insert_eq. apply delete_id, fresh_not_live.
  - apply insert_insert_eq.
Qed.

End SelfTest.

(** ** The further properties on concrete runs *)

Module MoreRuns.
Import FileModel Samples MoreSamples.

Lemma zdir_patch_new_accessors_witness :
  zdir_patch_new "." bilbo patch_create "/" init_state = Returns (Some 1%positive, bilbo_state) /\
  zdir_patch_path (Some 1%positive) bilbo_state = Returns (".", bilbo_state) /\
  zdir_patch_op (Some 1%positive) bilbo_state = Returns (patch_create, bilbo_state) /\
  zdir_patch_file (Some 1%positive) bilbo_state = Returns (bilbo, bilbo_state).
Proof.
  assert (H : zdir_patch_new "." bilbo patch_create "/" init_state
              = Returns (Some 1%positive, bilbo_state)) by (vm_compute; reflexivity).
  exact (conj H (zdir_patch_new_accessors _ _ _ _ _ _ _ H)).
Defined.

Lemma zdir_patch_new_frame_witness :
  zdir_patch_new "notes" todo patch_delete "/data" bilbo_state
    = Returns (Some 2%positive, allocated (built_patch "notes" todo patch_delete "/data")
                                          bilbo_state) /\
  patches (allocated (built_patch "notes" todo patch_delete "/data") bilbo_state) !! 1%positive
    = patches bilbo_state !! 1%positive.
Proof.
  assert (H : zdir_patch_new "notes" todo patch_delete "/data" bilbo_state
              = Returns (Some 2%positive,
                         allocated (built_patch "notes" todo patch_delete "/data") bilbo_state))
    by (vm_compute; reflexivity).
  destruct (zdir_patch_new_frame _ _ _ _ _ _ _ H) as (l & Hself & _ & _ & Hframe & _).
  injection Hself as <-.
  exact (conj H (Hframe 1%positive ltac:(discriminate))).
Defined.

Lemma zdir_patch_new_vpath_injective_witness :
  zdir_patch_new "notes" todo patch_delete "/data" init_state
    = Returns (Some 1%positive, todo_state) /\
  zdir_patch_new "docs" todo_docs patch_create "/data" bilbo_state
    = Returns (Some 2%positive, allocated (built_patch "docs" todo_docs patch_create "/data")
                                          bilbo_state) /\
  zfile_filename todo "notes" = zfile_filename todo_docs "docs".
Proof.
  assert (H1 : zdir_patch_new "notes" todo patch_delete "/data" init_state
               = Returns (Some 1%positive, todo_state)) by (vm_compute; reflexivity).
  assert (H2 : zdir_patch_new "docs" todo_docs patch_create "/data" bilbo_state
               = Returns (Some 2%positive,
                          allocated (built_patch "docs" todo_docs patch_create "/data")
                                    bilbo_state)) by (vm_compute; reflexivity).
  assert (V1 : zdir_patch_vpath (Some 1%positive) todo_state
               = Returns ("/data/todo.txt", todo_state)) by (vm_compute; reflexivity).
  assert (V2 : zdir_patch_vpath (Some 2%positive)
                 (allocated (built_patch "docs" todo_docs patch_create "/data") bilbo_state)
               = Returns ("/data/todo.txt",
                          allocated (built_patch "docs" todo_docs patch_create "/data")
                                    bilbo_state)) by (vm_compute; reflexivity).
  exact (conj H1 (conj H2
    (zdir_patch_new_vpath_injective _ _ _ _ _ _ _ _ _ _ _ _ _ _ H1 H2 V1 V2))).
Defined.

Lemma zdir_patch_digest_set_first_and_next_witness :
  patches bilbo_state !! 1%positive = Some bilbo_patch /\
  zdir_patch_digest_set disk_unreadable (Some 1%positive) bilbo_state
    = Returns (tt, bilbo_state) /\
  zdir_patch_digest_set disk_after (Some 1%positive) bilbo_state
    = Returns (tt, bilbo_cached_late) /\
  zdir_patch_digest (Some 1%positive) bilbo_cached_late
    = Returns (Some "2fd4e1c67a2d28fced849ee1bb76e7391b93eb12", bilbo_cached_late).
Proof.
  assert (Hl : patches bilbo_state !! 1%positive = Some bilbo_patch)
    by (vm_compute; reflexivity).
  destruct (zdir_patch_digest_set_first_and_next disk_unreadable disk_after
              bilbo_state 1%positive bilbo_patch Hl eq_refl eq_refl)
    as (s1 & s2 & Hfirst & _ & Hnext & Hdig).
  assert (E1 : s1 = bilbo_state).
  { assert (Hc : zdir_patch_digest_set disk_unreadable (Some 1%positive) bilbo_state
                 = Returns (tt, bilbo_state)) by (vm_compute; reflexivity).
    congruence. }
  subst s1.
  assert (E2 : s2 = bilbo_cached_late).
  { assert (Hc : zdir_patch_digest_set disk_after (Some 1%positive) bilbo_state
                 = Returns (tt, bilbo_cached_late)) by (vm_compute; reflexivity).
    congruence. }
  subst s2.
  exact (conj Hl (conj Hfirst (conj Hnext Hdig))).
Defined.

Lemma step_keeps_patch_witness :
  step bilbo_state bilbo_cached /\
  vpath (cached disk_before bilbo_patch) = vpath bilbo_patch /\
  op (cached disk_before bilbo_patch) = op bilbo_patch.
Proof.
  assert (Hstep : step bilbo_state bilbo_cached).
  { exists (CallDigestSet disk_before (Some 1%positive)). vm_compute. reflexivity. }
  assert (Hl : patches bilbo_state !! 1%positive = Some bilbo_patch)
    by (vm_compute; reflexivity).
  assert (Hl' : patches bilbo_cached !! 1%positive = Some (cached disk_before bilbo_patch))
    by (vm_compute; reflexivity).
  destruct (step_keeps_patch _ _ _ _ _ Hstep Hl Hl') as (_ & Hvp & _ & Hop & _).
  exact (conj Hstep (conj Hvp Hop)).
Defined.

Lemma use_after_destroy_witness :
  refs bilbo_owned !! 1%positive = Some (Some 1%positive) /\
  zdir_patch_destroy (Some 1%positive) bilbo_owned = Returns (tt, bilbo_destroyed) /\
  zdir_patch_vpath (Some 1%positive) bilbo_destroyed = Undefined /\
  zdir_patch_dup (Some 1%positive) bilbo_destroyed = Undefined.
Proof.
  assert (Hx : refs bilbo_owned !! 1%positive = Some (Some 1%positive))
    by (vm_compute; reflexivity).
  assert (Hrun : zdir_patch_destroy (Some 1%positive) bilbo_owned
                 = Returns (tt, bilbo_destroyed)) by (vm_compute; reflexivity).
  destruct (use_after_destroy bilbo_owned 1%positive 1%positive bilbo_destroyed
              disk_before Hx Hrun) as (_ & Hvp & _ & _ & _ & Hdup & _).
  exact (conj Hx (conj Hrun (conj Hvp Hdup))).
Defined.

Lemma zdir_patch_destroy_aliased_witness :
  refs bilbo_shared !! 1%positive = Some (Some 1%positive) /\
  refs bilbo_shared !! 2%positive = Some (Some 1%positive) /\
  zdir_patch_destroy (Some 1%positive) bilbo_shared = Returns (tt, bilbo_shared_destroyed) /\
  zdir_patch_destroy (Some 2%positive) bilbo_shared_destroyed = Undefined.
Proof.
  assert (Hx : refs bilbo_shared !! 1%positive = Some (Some 1%positive))
    by (vm_compute; reflexivity).
  assert (Hy : refs bilbo_shared !! 2%positive = Some (Some 1%positive))
    by (vm_compute; reflexivity).
  assert (Hrun : zdir_patch_destroy (Some 1%positive) bilbo_shared
                 = Returns (tt, bilbo_shared_destroyed)) by (vm_compute; reflexivity).
  destruct (zdir_patch_destroy_aliased bilbo_shared 1%positive 2%positive 1%positive
              bilbo_shared_destroyed ltac:(discriminate) Hx Hy Hrun) as [_ Hsecond].
  exact (conj Hx (conj Hy (conj Hrun Hsecond))).
Defined.

Lemma zdir_patch_destroy_frame_witness :
  zdir_patch_destroy (Some 1%positive) bilbo_shared = Returns (tt, bilbo_shared_destroyed) /\
  refs bilbo_shared_destroyed !! 2%positive = refs bilbo_shared !! 2%positive.
Proof.
  assert (Hrun : zdir_patch_destroy (Some 1%positive) bilbo_shared
                 = Returns (tt, bilbo_shared_destroyed)) by (vm_compute; reflexivity).
  destruct (zdir_patch_destroy_frame bilbo_shared 1%positive bilbo_shared_destroyed Hrun)
    as [Hrefs _].
  exact (conj Hrun (Hrefs 2%positive ltac:(discriminate))).
Defined.

Lemma zdir_patch_new_destroy_roundtrip_witness :
  zdir_patch_new "notes" todo patch_delete "/data" bilbo_state
    = Returns (Some 2%positive, allocated (built_patch "notes" todo patch_delete "/data")
                                          bilbo_state) /\
  exists s3,
    bind (declare_ref 7%positive (Some 2%positive))
         (fun _ => zdir_patch_destroy (Some 7%positive))
         (allocated (built_patch "notes" todo patch_delete "/data") bilbo_state)
      = Returns (tt, s3) /\
    patches s3 = patches bilbo_state /\
    refs s3 = <[7%positive := None]> (refs bilbo_state).
Proof.
  assert (H : zdir_patch_new "notes" todo patch_delete "/data" bilbo_state
              = Returns (Some 2%positive,
                         allocated (built_patch "notes" todo patch_delete "/data") bilbo_state))
    by (vm_compute; reflexivity).
  exact (conj H (zdir_patch_new_destroy_roundtrip _ _ _ _ _ _ _ 7%positive H)).
Defined.

Lemma zdir_patch_dup_outlives_original_witness :
  refs bilbo_owned !! 1%positive = Some (Some 1%positive) /\
  patches bilbo_owned !! 1%positive = Some bilbo_patch /\
  exists c s1 s2,
    zdir_patch_dup (Some 1%positive) bilbo_owned = Returns (Some c, s1) /\
    zdir_patch_destroy (Some 1%positive) s1 = Returns (tt, s2) /\
    zdir_patch_vpath (Some c) s2 = Returns ("/bilbo", s2).
Proof.
  assert (Hx : refs bilbo_owned !! 1%positive = Some (Some 1%positive))
    by (vm_compute; reflexivity).
  assert (Hl : patches bilbo_owned !! 1%positive = Some bilbo_patch)
    by (vm_compute; reflexivity).
  destruct (zdir_patch_dup_outlives_original bilbo_owned 1%positive 1%positive bilbo_patch
              Hx Hl) as (c & s1 & s2 & Hdup & Hdestroy & _ & _ & Hvp & _).
  split; [exact Hx|]. split; [exact Hl|]. exists c, s1, s2.
  split; [exact Hdup|]. split; [exact Hdestroy | exact Hvp].
Defined.

Lemma zdir_patch_dup_digest_separate_witness :
  patches bilbo_state !! 1%positive = Some bilbo_patch /\
  exists c s1 s2,
    zdir_patch_dup (Some 1%positive) bilbo_state = Returns (Some c, s1) /\
    zdir_patch_digest_set disk_before (Some 1%positive) s1 = Returns (tt, s2) /\
    zdir_patch_digest (Some c) s2 = Returns (None, s2).
Proof.
  assert (Hl : patches bilbo_state !! 1%positive = Some bilbo_patch)
    by (vm_compute; reflexivity).
  destruct (zdir_patch_dup_digest_separate bilbo_state 1%positive bilbo_patch disk_before Hl)
    as (c & s1 & s2 & s3 & Hdup & Hset & Hdig & _).
  split; [exact Hl|]. exists c, s1, s2.
  split; [exact Hdup|]. split; [exact Hset | exact Hdig].
Defined.

Lemma reachable_vpath_has_separator_witness :
  reachable bilbo_state /\
  patches bilbo_state !! 1%positive = Some bilbo_patch /\
  exists v, zdir_patch_vpath (Some 1%positive) bilbo_state = Returns (v, bilbo_state) /\
            contains_slash v = true /\ v <> "".
Proof.
  assert (Hr : reachable bilbo_state).
  { apply rtc_once. exists (CallNew "." bilbo patch_create "/"). vm_compute. reflexivity. }
  assert (Hl : patches bilbo_state !! 1%positive = Some bilbo_patch)
    by (vm_compute; reflexivity).
  exact (conj Hr (conj Hl (reachable_vpath_has_separator _ _ _ Hr Hl))).
Defined.

Lemma zdir_patch_dup_frame_witness :
  zdir_patch_dup (Some 1%positive) bilbo_owned
    = Returns (Some 2%positive, allocated (copy_of bilbo_patch) bilbo_owned) /\
  patches (allocated (copy_of bilbo_patch) bilbo_owned) !! 1%positive
    = patches bilbo_owned !! 1%positive /\
  refs (allocated (copy_of bilbo_patch) bilbo_owned) = refs bilbo_owned.
Proof.
  assert (H : zdir_patch_dup (Some 1%positive) bilbo_owned
              = Returns (Some 2%positive, allocated (copy_of bilbo_patch) bilbo_owned))
    by (vm_compute; reflexivity).
  destruct (zdir_patch_dup_frame _ _ _ _ H) as (c & Hcopy & _ & _ & Hframe & Hrefs).
  injection Hcopy as <-.
  exact (conj H (conj (Hframe 1%positive ltac:(discriminate)) Hrefs)).
Defined.

Lemma accessors_read_only_witness :
  zdir_patch_digest (Some 1%positive) bilbo_cached
    = Returns (Some "da39a3ee5e6b4b0d3255bfef95601890afd80709", bilbo_cached) /\
  exists l p, Some 1%positive = Some l /\ patches bilbo_cached !! l = Some p /\
              Some "da39a3ee5e6b4b0d3255bfef95601890afd80709" = digest p.
Proof.
  assert (H : zdir_patch_digest (Some 1%positive) bilbo_cached
              = Returns (Some "da39a3ee5e6b4b0d3255bfef95601890afd80709", bilbo_cached))
    by (vm_compute; reflexivity).
  destruct (accessors_read_only (Some 1%positive) bilbo_cached bilbo_cached)
    as (_ & _ & _ & _ & Hdig).
  exact (conj H (proj2 (Hdig _ H))).
Defined.

End MoreRuns.
